(** * Frontend Auditor Agent: audit engine and GitHub content client

    A shallow embedding of [src/audit/audit-engine.js] (class [AuditEngine]),
    [src/services/github-mcp-client.js] (class [GitHubMCPClient]) and
    [src/config/mcp-config.js], followed by the properties of the
    specification that were checked against them.

    Conventions of the embedding:
    - JavaScript strings are [string] (sequences of 8-bit code units);
    - the integer-valued numbers of the report (counters, scores, sizes)
      are [Z]; the one quotient the engine computes is an exact rational;
    - [undefined] is [None] in an [option];
    - a function that can throw returns a [Completion];
    - the audit report is a single mutable object in the source: the
      checks are computations in a state monad over [AuditReport] whose
      state survives a thrown exception (the mutation already happened);
    - a JS object used as a dictionary is a [gmap string _];
    - the built-ins the code receives from its host ([JSON.parse], the
      Octokit [repos.getContent] call, base64 decoding, the clock) are
      Section variables: every theorem holds for all of them. *)

From Stdlib Require Import ZArith QArith Qround Floats Ascii String List Lia.
From stdpp Require Import gmap strings list fin_maps.

Set Warnings "-register-all,-clear-no-such-hyp".
Local Open Scope string_scope.
Local Open Scope Z_scope.
Local Open Scope list_scope.

(* ===================================================================== *)
(** * JavaScript values and built-ins *)
(* ===================================================================== *)

Module JS.

(** ** Strings *)

(** [s.startsWith(p)] *)
Definition startsWith (s p : string) : bool := String.prefix p s.

(** [s.includes(sub)] *)
Fixpoint includes (s sub : string) : bool :=
  String.prefix sub s ||
  match s with
  | EmptyString => false
  | String _ s' => includes s' sub
  end.

(** [s.endsWith(suf)] *)
Fixpoint endsWith (s suf : string) : bool :=
  String.eqb s suf ||
  match s with
  | EmptyString => false
  | String _ s' => endsWith s' suf
  end.

(** ** Exceptions *)

(** [RequestError] is Octokit's: [status] is the HTTP status of the failed
    request (404 for an absent path; 403, 429 or 5xx for rate limiting and
    other transient failures). *)
Inductive Error : Type :=
  | TypeError
  | SyntaxError
  | RequestError (status : Z).

Inductive Completion (A : Type) : Type :=
  | Normal (a : A)
  | Throw (e : Error).
Arguments Normal {A} a.
Arguments Throw {A} e.

(** ** Values produced by [JSON.parse] *)

Inductive Value : Type :=
  | JNull
  | JBool (b : bool)
  | JNumber (d : float)
  | JString (s : string)
  | JArray (l : list Value)
  | JObject (m : gmap string Value).

(** [ToBoolean]; [None] is [undefined]. *)
Definition truthy (v : option Value) : bool :=
  match v with
  | None => false
  | Some JNull => false
  | Some (JBool b) => b
  | Some (JNumber d) => negb (PrimFloat.eqb d 0%float || PrimFloat.is_nan d)
  | Some (JString s) => negb (String.eqb s "")
  | Some (JArray _) => true
  | Some (JObject _) => true
  end.

(** [v.k] and [v[k]] for a property name [k] that no prototype defines and
    that is neither an array index nor ["length"] (every name the engine
    reads is of that kind): own data properties of objects only, and a
    [TypeError] on [null]. *)
Definition get (v : Value) (k : string) : Completion (option Value) :=
  match v with
  | JNull => Throw TypeError
  | JObject m => Normal (m !! k)
  | _ => Normal None
  end.

(** [o?.[k]] *)
Definition get_opt (o : option Value) (k : string)
  : Completion (option Value) :=
  match o with
  | None | Some JNull => Normal None
  | Some v => get v k
  end.

(** ** Numbers that are not integers by construction *)

Inductive Number : Type :=
  | NaN
  | Infinity (negative : bool)
  | Rat (q : Q).

(** [a / b] on integer-valued operands, kept exact.  The engine divides a
    sum of scores, each at most 100, by the number of categories: the
    double nearest to such a quotient and the quotient itself are rounded
    by [Math.round] to the same integer, a tie [k + 1/2] being a double. *)
Definition div (a b : Z) : Number :=
  if b =? 0 then
    if a =? 0 then NaN else Infinity (a <? 0)
  else Rat (Qdiv (inject_Z a) (inject_Z b)).

(** [Math.round]: the nearest integer, a tie going up. *)
Definition Math_round (x : Number) : Number :=
  match x with
  | Rat q => Rat (inject_Z (Qfloor (Qplus q (Qmake 1 2))))
  | _ => x
  end.

(** [Math.max(a, b)] on integers *)
Definition Math_max (a b : Z) : Z := Z.max a b.

(** ** Computations that mutate an object and may throw

    [Eff S A] is a piece of code that runs against a mutable object of type
    [S]: it completes normally or abruptly and leaves the object as it was
    at that moment. *)

Definition Eff (S A : Type) : Type := S -> Completion A * S.

Definition ret {S A : Type} (a : A) : Eff S A := fun s => (Normal a, s).

Definition bind {S A B : Type} (m : Eff S A) (k : A -> Eff S B) : Eff S B :=
  fun s =>
    match m s with
    | (Normal a, s') => k a s'
    | (Throw e, s') => (Throw e, s')
    end.

Definition lift {S A : Type} (c : Completion A) : Eff S A := fun s => (c, s).

(** [try { body } catch (error) { handler }] *)
Definition try_catch {S A : Type} (body : Eff S A) (handler : Error -> Eff S A)
  : Eff S A :=
  fun s =>
    match body s with
    | (Normal a, s') => (Normal a, s')
    | (Throw e, s') => handler e s'
    end.

Definition when {S : Type} (b : bool) (m : Eff S unit) : Eff S unit :=
  if b then m else ret tt.

(** [for (const x of l) { body }] and [l.forEach(body)] *)
Fixpoint for_of {S X : Type} (l : list X) (body : X -> Eff S unit)
  : Eff S unit :=
  match l with
  | [] => ret tt
  | x :: l' => bind (body x) (fun _ => for_of l' body)
  end.

(** [l.filter(p)] for a predicate that may throw *)
Fixpoint filter_of {S X : Type} (l : list X) (p : X -> Eff S bool)
  : Eff S (list X) :=
  match l with
  | [] => ret []
  | x :: l' =>
      bind (p x) (fun keep =>
      bind (filter_of l' p) (fun rest =>
      ret (if keep then x :: rest else rest)))
  end.

(** [array.push(x)] on an array that is the whole state *)
Definition push {X : Type} (x : X) : Eff (list X) unit :=
  fun arr => (Normal tt, arr ++ [x]).

(** ** Regular expressions

    The fragment of the pattern syntax that the code's pattern lists
    produce: a pattern character that is not a syntax character stands for
    itself, [.] is any character but a line terminator, and [*] repeats the
    atom before it.  A source with another syntax character is outside
    the fragment ([Unsupported]); a [*] with nothing to repeat is the
    [SyntaxError] the constructor throws. *)

Module RegExp.

Inductive Atom : Type :=
  | AChar (c : ascii)
  | ADot.

Inductive Term : Type :=
  | One (a : Atom)
  | Star (a : Atom).

Inductive Source : Type :=
  | Compiled (r : list Term)
  | Invalid
  | Unsupported.

(** The syntax characters: caret, dollar, backslash (code 92), dot, star,
    plus, question mark, parentheses, brackets, braces and bar. *)
Definition isSyntaxCharacter (c : ascii) : bool :=
  existsb (Ascii.eqb c)
    ["^"; "$"; "092"; "."; "*"; "+"; "?"; "("; ")"; "["; "]"; "{"; "}";
     "|"]%char.

(** Line feed and carriage return, the line terminators below U+0100. *)
Definition isLineTerminator (c : ascii) : bool :=
  Ascii.eqb c "010"%char || Ascii.eqb c "013"%char.

Definition atom_of (c : ascii) : option Atom :=
  if Ascii.eqb c "."%char then Some ADot
  else if isSyntaxCharacter c then None
  else Some (AChar c).

Definition cons_term (t : Term) (rest : Source) : Source :=
  match rest with
  | Compiled r => Compiled (t :: r)
  | other => other
  end.

(** [new RegExp(src)] *)
Fixpoint compile (src : string) : Source :=
  match src with
  | EmptyString => Compiled []
  | String c rest =>
      if Ascii.eqb c "*"%char then Invalid
      else
        match atom_of c with
        | None => Unsupported
        | Some a =>
            match rest with
            | String "*"%char rest' => cons_term (Star a) (compile rest')
            | _ => cons_term (One a) (compile rest)
            end
        end
  end.

Definition atom_matches (a : Atom) (c : ascii) : bool :=
  match a with
  | AChar x => Ascii.eqb x c
  | ADot => negb (isLineTerminator c)
  end.

(** Does [r] match a prefix of [s]? *)
Fixpoint match_here (r : list Term) (s : string) : bool :=
  match r with
  | [] => true
  | One a :: r' =>
      match s with
      | EmptyString => false
      | String c s' => atom_matches a c && match_here r' s'
      end
  | Star a :: r' =>
      (fix star (s : string) : bool :=
         match_here r' s ||
         match s with
         | EmptyString => false
         | String c s' => atom_matches a c && star s'
         end) s
  end.

(** [regex.test(s)], no flags: a match may start anywhere in [s]. *)
Fixpoint test (r : list Term) (s : string) : bool :=
  match_here r s ||
  match s with
  | EmptyString => false
  | String _ s' => test r s'
  end.

End RegExp.

(** [s.replace(c, by)] for a one-character search string and a replacement
    without [$]: only the first occurrence is replaced. *)
Fixpoint replace (s : string) (c : ascii) (by_ : string) : string :=
  match s with
  | EmptyString => EmptyString
  | String x s' =>
      if Ascii.eqb x c then by_ +:+ s' else String x (replace s' c by_)
  end.

End JS.

Declare Scope eff_scope.
Delimit Scope eff_scope with eff.
Notation "'let*' x ':=' m 'in' k" :=
  (JS.bind m (fun x => k))
  (at level 10, x name, m at level 100, k at level 200,
   format "'[v' 'let*'  x  ':='  m  'in' '/' k ']'") : eff_scope.
Notation "'let*' '_' ':=' m 'in' k" :=
  (JS.bind m (fun _ => k))
  (at level 10, m at level 100, k at level 200,
   format "'[v' 'let*'  '_'  ':='  m  'in' '/' k ']'") : eff_scope.
Local Open Scope eff_scope.

(* ===================================================================== *)
(** * Configuration ([src/config/mcp-config.js]) *)
(* ===================================================================== *)

Module Config.

Record Repository : Type := {
  owner : string;
  repo : string;
  path : option string;
  branch : string
}.

Record Repositories : Type := {
  target : Repository;
  boilerplate : Repository;
  commonConfig : Repository
}.

Record Chunking : Type := {
  maxFileSize : Z;
  maxFilesPerBatch : Z;
  excludePatterns : list string;
  includePatterns : list string
}.

Record AuditRules : Type := {
  critical : list string;
  high : list string;
  medium : list string;
  low : list string
}.

Record RateLimiting : Type := {
  requestsPerMinute : Z;
  batchDelay : Z;
  retryAttempts : Z;
  retryDelay : Z
}.

Record t : Type := {
  repositories : Repositories;
  chunking : Chunking;
  auditRules : AuditRules;
  rateLimiting : RateLimiting
}.

Definition MCP_CONFIG : t := {|
  repositories := {|
    target := {| owner := "DTSL"; repo := "dnd-editor"; path := None;
                 branch := "dev" |};
    boilerplate := {| owner := "DTSL"; repo := "backstage-templates";
                      path := Some "templates/monorepo-app-boilerplate/template";
                      branch := "main" |};
    commonConfig := {| owner := "DTSL"; repo := "fe-common-config";
                       path := None; branch := "main" |}
  |};
  chunking := {|
    maxFileSize := 50000;
    maxFilesPerBatch := 10;
    excludePatterns :=
      ["node_modules/**"; "coverage/**"; "dist/**"; "build/**"; "*.log";
       "*.lock"; "yarn.lock"; "package-lock.json"];
    includePatterns :=
      ["package.json"; "tsconfig.json"; "babel.config.*"; "jest.config.*";
       "webpack.config.*"; "eslint.config.*"; "*.md";
       "src/**/*.{js,jsx,ts,tsx}"; "apps/**/package.json";
       "packages/**/package.json"; "config/**/*.{js,json}"]
  |};
  auditRules := {|
    critical := ["package-structure"; "dependency-versions";
                 "security-vulnerabilities"];
    high := ["code-quality"; "test-coverage"; "build-configuration"];
    medium := ["documentation"; "naming-conventions"; "file-organization"];
    low := ["comments"; "formatting"; "unused-dependencies"]
  |};
  rateLimiting := {|
    requestsPerMinute := 60;
    batchDelay := 1000;
    retryAttempts := 3;
    retryDelay := 2000
  |}
|}.

Module AUDIT_CATEGORIES.
Definition STRUCTURE : string := "Repository Structure".
Definition DEPENDENCIES : string := "Dependencies & Package Management".
Definition BUILD : string := "Build Configuration".
Definition CODE_QUALITY : string := "Code Quality & Standards".
Definition TESTING : string := "Testing Setup".
Definition DOCUMENTATION : string := "Documentation".
Definition SECURITY : string := "Security & Compliance".
End AUDIT_CATEGORIES.

Module SEVERITY_LEVELS.
Definition CRITICAL : string := "critical".
Definition HIGH : string := "high".
Definition MEDIUM : string := "medium".
Definition LOW : string := "low".
Definition INFO : string := "info".
End SEVERITY_LEVELS.

End Config.

(* ===================================================================== *)
(** * GitHub client ([src/services/github-mcp-client.js]) *)
(* ===================================================================== *)

Module Client.

(** One object of the content API's answer: an entry of a directory
    listing (no [content]) or the object found at a path. *)
Module Item.
Record t : Type := {
  name : string;
  path : string;
  type : string;
  size : Z;
  sha : string;
  content : option string
}.
End Item.

(** [data] of [repos.getContent]: an array for a directory, else one object;
    an array has neither [size] nor [content]. *)
Inductive Data : Type :=
  | Listing (items : list Item.t)
  | Single (item : Item.t).

(** The object [getFileContent] returns. *)
Module File.
Record t : Type := {
  path : string;
  content : string;
  size : Z;
  sha : string
}.
End File.

Module Metadata.
Record t : Type := {
  owner : string;
  repo : string;
  fetchedAt : string;
  totalFiles : Z
}.
End Metadata.

Record RepositoryData : Type := {
  packageFiles : list File.t;
  configFiles : list File.t;
  metadata : Metadata.t
}.

(** Run code that has no object to mutate. *)
Definition run {A : Type} (m : JS.Eff unit A) : JS.Completion A := fst (m tt).

(** Run code against a local array that starts empty. *)
Definition with_array {X A : Type} (m : JS.Eff (list X) A) : JS.Completion A :=
  fst (m []).

(** The current value of the local array. *)
Definition array {X : Type} : JS.Eff (list X) (list X) :=
  fun arr => (JS.Normal arr, arr).

(** [if (file) { array.push(file) }] *)
Definition push_if_present {X : Type} (file : option X)
  : JS.Eff (list X) unit :=
  match file with
  | Some f => JS.push f
  | None => JS.ret tt
  end.

(** [matchesPattern]; [None] when a pattern is outside the fragment of
    [JS.RegExp]. [patterns.some] stops at the first pattern that matches. *)
Fixpoint matchesPattern (filename : string) (patterns : list string)
  : option (JS.Completion bool) :=
  match patterns with
  | [] => Some (JS.Normal false)
  | pattern :: rest =>
      match JS.RegExp.compile (JS.replace pattern "*"%char ".*") with
      | JS.RegExp.Unsupported => None
      | JS.RegExp.Invalid => Some (JS.Throw JS.SyntaxError)
      | JS.RegExp.Compiled regex =>
          if JS.RegExp.test regex filename then Some (JS.Normal true)
          else matchesPattern filename rest
      end
  end.

Definition configPatterns : list string :=
  ["babel.config.*"; "jest.config.*"; "webpack.config.*"; "tsconfig.json";
   "jsconfig.json"; "eslint.config.*"; "prettier.config.*"; "turbo.json"].

Definition keyFiles : list string :=
  ["package.json"; "babel.config.json"; "jest.config.js"; "tsconfig.json";
   "turbo.json"].

Section Client.

(** [this.octokit.rest.repos.getContent({ owner, repo, path, ref })] *)
Variable getContent :
  string -> string -> string -> string -> JS.Completion Data.

(** [Buffer.from(s, 'base64').toString('utf8')] *)
Variable base64_decode : string -> string.

(** [this.config] *)
Variable config : Config.t.

(** [new Date().toISOString()] *)
Variable now : string.

Definition ref : string :=
  Config.branch (Config.target (Config.repositories config)).

Definition getRepositoryStructure (owner repo path : string)
  : JS.Completion (list Item.t) :=
  run (JS.try_catch
    (let* data := JS.lift (getContent owner repo path ref) in
     JS.ret (match data with
             | Listing items => items
             | Single item => [item]
             end))
    (fun error => JS.ret [])).

Definition getFileContent (owner repo path : string)
  : JS.Completion (option File.t) :=
  run (JS.try_catch
    (let* data := JS.lift (getContent owner repo path ref) in
     match data with
     | Listing _ =>
         (* [data.size] is undefined, the comparison false, and
            [Buffer.from(undefined, 'base64')] throws *)
         JS.lift (JS.Throw JS.TypeError)
     | Single data =>
         if Item.size data >? Config.maxFileSize (Config.chunking config)
         then JS.ret None
         else
           match Item.content data with
           | None => JS.lift (JS.Throw JS.TypeError)
           | Some content =>
               JS.ret (Some {| File.path := Item.path data;
                               File.content := base64_decode content;
                               File.size := Item.size data;
                               File.sha := Item.sha data |})
           end
     end)
    (fun error => JS.ret None)).

Definition getPackageJsonFiles (owner repo : string)
  : JS.Completion (list File.t) :=
  with_array (JS.try_catch
    (let* rootPackage := JS.lift (getFileContent owner repo "package.json") in
     let* _ := push_if_present rootPackage in
     let* appsStructure := JS.lift (getRepositoryStructure owner repo "apps") in
     let* packagesStructure :=
       JS.lift (getRepositoryStructure owner repo "packages") in
     let* _ := JS.for_of appsStructure (fun item =>
       JS.when (String.eqb (Item.type item) "dir")
         (let* appPackage :=
            JS.lift (getFileContent owner repo
                       (Item.path item +:+ "/package.json")) in
          push_if_present appPackage)) in
     let* _ := JS.for_of packagesStructure (fun item =>
       JS.when (String.eqb (Item.type item) "dir")
         (let* packageJson :=
            JS.lift (getFileContent owner repo
                       (Item.path item +:+ "/package.json")) in
          push_if_present packageJson)) in
     array)
    (fun error => array)).

Definition getConfigFiles (owner repo : string)
  : JS.Completion (list File.t) :=
  with_array (JS.try_catch
    (let* rootStructure := JS.lift (getRepositoryStructure owner repo "") in
     let* _ := JS.for_of rootStructure (fun item =>
       let* selected :=
         if String.eqb (Item.type item) "file" then
           match matchesPattern (Item.name item) configPatterns with
           | Some result => JS.lift result
           | None => JS.ret false (* not reached: [configPatterns] compile *)
           end
         else JS.ret false in
       JS.when selected
         (let* fileContent :=
            JS.lift (getFileContent owner repo (Item.path item)) in
          push_if_present fileContent)) in
     let* configDir := JS.lift (getRepositoryStructure owner repo "config") in
     let* _ := JS.for_of configDir (fun item =>
       JS.when (String.eqb (Item.type item) "file")
         (let* fileContent :=
            JS.lift (getFileContent owner repo (Item.path item)) in
          push_if_present fileContent)) in
     array)
    (fun error => array)).

Definition getBoilerplateTemplate : JS.Completion (list File.t) :=
  let boilerplate := Config.boilerplate (Config.repositories config) in
  let owner := Config.owner boilerplate in
  let repo := Config.repo boilerplate in
  let path := Config.path boilerplate in
  run (JS.try_catch
    (let* templateStructure :=
       JS.lift (getRepositoryStructure owner repo (default "" path)) in
     JS.lift (with_array
       (let* _ := JS.for_of keyFiles (fun fileName =>
          let filePath :=
            match path with
            | Some p =>
                if String.eqb p "" then fileName else p +:+ "/" +:+ fileName
            | None => fileName
            end in
          let* fileContent := JS.lift (getFileContent owner repo filePath) in
          push_if_present fileContent) in
        array)))
    (fun error => JS.ret [])).

Definition getCommonConfig : JS.Completion (list File.t) :=
  let commonConfig := Config.commonConfig (Config.repositories config) in
  let owner := Config.owner commonConfig in
  let repo := Config.repo commonConfig in
  run (JS.try_catch
    (let* configStructure := JS.lift (getRepositoryStructure owner repo "") in
     JS.lift (with_array
       (let* _ := JS.for_of configStructure (fun item =>
          JS.when
            (String.eqb (Item.type item) "file"
               && JS.endsWith (Item.name item) ".json"
             || JS.endsWith (Item.name item) ".js")
            (let* fileContent :=
               JS.lift (getFileContent owner repo (Item.path item)) in
             push_if_present fileContent)) in
        array)))
    (fun error => JS.ret [])).

Definition getRepositoryDataChunked (owner repo : string)
  : JS.Completion RepositoryData :=
  run (JS.try_catch
    (let* packageFiles := JS.lift (getPackageJsonFiles owner repo) in
     let* configFiles := JS.lift (getConfigFiles owner repo) in
     JS.ret {| packageFiles := packageFiles;
               configFiles := configFiles;
               metadata := {|
                 Metadata.owner := owner;
                 Metadata.repo := repo;
                 Metadata.fetchedAt := now;
                 Metadata.totalFiles :=
                   Z.of_nat (length packageFiles)
                   + Z.of_nat (length configFiles) |} |})
    (fun error => JS.lift (JS.Throw error))).

End Client.

End Client.

(* ===================================================================== *)
(** * Audit engine ([src/audit/audit-engine.js]) *)
(* ===================================================================== *)

Module Engine.

Import Config.

Record Issue : Type := {
  severity : string;
  message : string;
  description : string;
  file : string;
  suggestion : option string
}.

Record Category : Type := {
  issues : list Issue;
  score : Z
}.

Record Summary : Type := {
  totalIssues : Z;
  criticalIssues : Z;
  highIssues : Z;
  mediumIssues : Z;
  lowIssues : Z;
  complianceScore : JS.Number
}.

Record AuditReport : Type := {
  repository : string * string;
  timestamp : string;
  summary : Summary;
  categories : gmap string Category;
  recommendations : list string
}.

Definition set_summary (r : AuditReport) (s : Summary) : AuditReport :=
  {| repository := repository r; timestamp := timestamp r; summary := s;
     categories := categories r; recommendations := recommendations r |}.

Definition set_categories (r : AuditReport) (c : gmap string Category)
  : AuditReport :=
  {| repository := repository r; timestamp := timestamp r;
     summary := summary r; categories := c;
     recommendations := recommendations r |}.

(** The object literal at the head of [auditRepository]. *)
Definition newReport (owner repo now : string) : AuditReport := {|
  repository := (owner, repo);
  timestamp := now;
  summary := {| totalIssues := 0; criticalIssues := 0; highIssues := 0;
                mediumIssues := 0; lowIssues := 0;
                complianceScore := JS.Rat (inject_Z 0) |};
  categories := ∅;
  recommendations := []
|}.

(** [auditReport.categories[category] = { issues: [], score: 100 }] *)
Definition initCategory (category : string) : JS.Eff AuditReport unit :=
  fun auditReport =>
    (JS.Normal tt,
     set_categories auditReport
       (<[category := {| issues := []; score := 100 |}]>
          (categories auditReport))).

(** The [switch] of [addIssue]: the summary counter and the penalty of a
    severity; no [case] for any other string. *)
Definition count_severity (sev : string) (s : Summary) : Summary :=
  if String.eqb sev SEVERITY_LEVELS.CRITICAL then
    {| totalIssues := totalIssues s; criticalIssues := criticalIssues s + 1;
       highIssues := highIssues s; mediumIssues := mediumIssues s;
       lowIssues := lowIssues s; complianceScore := complianceScore s |}
  else if String.eqb sev SEVERITY_LEVELS.HIGH then
    {| totalIssues := totalIssues s; criticalIssues := criticalIssues s;
       highIssues := highIssues s + 1; mediumIssues := mediumIssues s;
       lowIssues := lowIssues s; complianceScore := complianceScore s |}
  else if String.eqb sev SEVERITY_LEVELS.MEDIUM then
    {| totalIssues := totalIssues s; criticalIssues := criticalIssues s;
       highIssues := highIssues s; mediumIssues := mediumIssues s + 1;
       lowIssues := lowIssues s; complianceScore := complianceScore s |}
  else if String.eqb sev SEVERITY_LEVELS.LOW then
    {| totalIssues := totalIssues s; criticalIssues := criticalIssues s;
       highIssues := highIssues s; mediumIssues := mediumIssues s;
       lowIssues := lowIssues s + 1; complianceScore := complianceScore s |}
  else s.

Definition deduct (sev : string) (score : Z) : Z :=
  if String.eqb sev SEVERITY_LEVELS.CRITICAL then score - 25
  else if String.eqb sev SEVERITY_LEVELS.HIGH then score - 15
  else if String.eqb sev SEVERITY_LEVELS.MEDIUM then score - 10
  else if String.eqb sev SEVERITY_LEVELS.LOW then score - 5
  else score.

(** [addIssue(auditReport, category, issue)]; reading [.issues] of a
    category that was never set is a [TypeError], before any mutation. *)
Definition addIssue (category : string) (issue : Issue)
  : JS.Eff AuditReport unit :=
  fun auditReport =>
    match categories auditReport !! category with
    | None => (JS.Throw JS.TypeError, auditReport)
    | Some cat =>
        let pushed := issues cat ++ [issue] in
        let s := summary auditReport in
        let s := {| totalIssues := totalIssues s + 1;
                    criticalIssues := criticalIssues s;
                    highIssues := highIssues s;
                    mediumIssues := mediumIssues s;
                    lowIssues := lowIssues s;
                    complianceScore := complianceScore s |} in
        let s := count_severity (severity issue) s in
        let score := deduct (severity issue) (score cat) in
        let score := JS.Math_max 0 score in
        (JS.Normal tt,
         set_categories (set_summary auditReport s)
           (<[category := {| issues := pushed; score := score |}]>
              (categories auditReport)))
    end.

(** [Object.values(auditReport.categories)] *)
Definition Object_values (m : gmap string Category) : list Category :=
  (map_to_list m).*2.

Definition calculateComplianceScore : JS.Eff AuditReport unit :=
  fun auditReport =>
    let categoryScores := map score (Object_values (categories auditReport)) in
    let averageScore :=
      JS.div (fold_left (fun sum score => sum + score) categoryScores 0)
             (Z.of_nat (length categoryScores)) in
    let s := summary auditReport in
    (JS.Normal tt,
     set_summary auditReport
       {| totalIssues := totalIssues s; criticalIssues := criticalIssues s;
          highIssues := highIssues s; mediumIssues := mediumIssues s;
          lowIssues := lowIssues s;
          complianceScore := JS.Math_round averageScore |}).

Definition issue (severity message description file : string) : Issue :=
  {| severity := severity; message := message; description := description;
     file := file; suggestion := None |}.

(** [targetData.packageFiles.find(f => f.path === 'package.json')] *)
Definition findRootPackage (targetData : Client.RepositoryData)
  : option Client.File.t :=
  List.find (fun f => String.eqb (Client.File.path f) "package.json")
            (Client.packageFiles targetData).

Definition requiredDeps : list string :=
  ["@dtsl/jest-config"; "@dtsl/eslint-config"; "@dtsl/prettier-config";
   "@dtsl/typescript-config"].

Section Checks.

(** [JSON.parse] *)
Variable JSON_parse : string -> JS.Completion JS.Value.

Definition auditPackageStructure (targetData : Client.RepositoryData)
  (boilerplateData : list Client.File.t) : JS.Eff AuditReport unit :=
  let category := AUDIT_CATEGORIES.STRUCTURE in
  let* _ := initCategory category in
  JS.try_catch
    (let rootPackage := findRootPackage targetData in
     let boilerplatePackage :=
       List.find (fun f => JS.includes (Client.File.path f) "package.json")
                 boilerplateData in
     match rootPackage with
     | None =>
         addIssue category
           (issue SEVERITY_LEVELS.CRITICAL
              "Missing root package.json file"
              "Every monorepo should have a root package.json file"
              "package.json")
     | Some rootPackage =>
         let* rootPkg :=
           JS.lift (JSON_parse (Client.File.content rootPackage)) in
         let* boilerplatePkg :=
           match boilerplatePackage with
           | Some b => JS.lift (JSON_parse (Client.File.content b))
           | None => JS.ret (JS.JObject ∅)
           end in
         let* workspaces := JS.lift (JS.get rootPkg "workspaces") in
         let* _ := JS.when (negb (JS.truthy workspaces))
           (addIssue category
              {| severity := SEVERITY_LEVELS.HIGH;
                 message := "Missing workspaces configuration";
                 description :=
                   "Monorepo should define workspaces in package.json";
                 file := "package.json";
                 suggestion :=
                   Some "Add workspaces configuration similar to boilerplate"
              |}) in
         let* packageManager := JS.lift (JS.get rootPkg "packageManager") in
         let* _ := JS.when (negb (JS.truthy packageManager))
           (addIssue category
              (issue SEVERITY_LEVELS.MEDIUM
                 "Missing packageManager field"
                 "Should specify package manager version for consistency"
                 "package.json")) in
         let* engines := JS.lift (JS.get rootPkg "engines") in
         let* _ := JS.when (negb (JS.truthy engines))
           (addIssue category
              (issue SEVERITY_LEVELS.MEDIUM
                 "Missing engines configuration"
                 "Should specify Node.js and npm/yarn version requirements"
                 "package.json")) in
         let hasApps :=
           existsb (fun f => JS.startsWith (Client.File.path f) "apps/")
                   (Client.packageFiles targetData) in
         let hasPackages :=
           existsb (fun f => JS.startsWith (Client.File.path f) "packages/")
                   (Client.packageFiles targetData) in
         JS.when (negb hasApps && negb hasPackages)
           (addIssue category
              (issue SEVERITY_LEVELS.HIGH
                 "Missing standard monorepo structure"
                 "Should have apps/ or packages/ directories"
                 "root"))
     end)
    (fun error => JS.ret tt).

(** [!rootPkg.devDependencies?.[dep] && !rootPkg.dependencies?.[dep]] *)
Definition isMissingDep (rootPkg : JS.Value) (dep : string)
  : JS.Eff AuditReport bool :=
  let* devDependencies := JS.lift (JS.get rootPkg "devDependencies") in
  let* inDev := JS.lift (JS.get_opt devDependencies dep) in
  if JS.truthy inDev then JS.ret false
  else
    let* dependencies := JS.lift (JS.get rootPkg "dependencies") in
    let* inDeps := JS.lift (JS.get_opt dependencies dep) in
    JS.ret (negb (JS.truthy inDeps)).

(** [rootPkg.dependencies?.lodash || rootPkg.devDependencies?.lodash] *)
Definition usesLodash (rootPkg : JS.Value) : JS.Eff AuditReport bool :=
  let* dependencies := JS.lift (JS.get rootPkg "dependencies") in
  let* inDeps := JS.lift (JS.get_opt dependencies "lodash") in
  if JS.truthy inDeps then JS.ret true
  else
    let* devDependencies := JS.lift (JS.get rootPkg "devDependencies") in
    let* inDev := JS.lift (JS.get_opt devDependencies "lodash") in
    JS.ret (JS.truthy inDev).

Definition auditDependencyManagement (targetData : Client.RepositoryData)
  (boilerplateData : list Client.File.t) : JS.Eff AuditReport unit :=
  let category := AUDIT_CATEGORIES.DEPENDENCIES in
  let* _ := initCategory category in
  JS.try_catch
    (match findRootPackage targetData with
     | None => JS.ret tt
     | Some rootPackage =>
         let* rootPkg :=
           JS.lift (JSON_parse (Client.File.content rootPackage)) in
         let* missingDeps := JS.filter_of requiredDeps (isMissingDep rootPkg) in
         let* _ := JS.for_of missingDeps (fun dep =>
           addIssue category
             (issue SEVERITY_LEVELS.MEDIUM
                ("Missing DTSL common dependency: " +:+ dep)
                "Should use DTSL common configurations for consistency"
                "package.json")) in
         let* lodash := usesLodash rootPkg in
         JS.when lodash
           (addIssue category
              (issue SEVERITY_LEVELS.LOW
                 "Consider using lodash-es instead of lodash"
                 "lodash-es provides better tree-shaking support"
                 "package.json"))
     end)
    (fun error => JS.ret tt).

(** [targetData.configFiles.find(f => p(f.path))], tested for presence *)
Definition hasConfig (targetData : Client.RepositoryData) (p : string -> bool)
  : bool :=
  match List.find (fun f => p (Client.File.path f))
                  (Client.configFiles targetData) with
  | Some _ => true
  | None => false
  end.

Definition auditBuildConfiguration (targetData : Client.RepositoryData)
  (boilerplateData : list Client.File.t) : JS.Eff AuditReport unit :=
  let category := AUDIT_CATEGORIES.BUILD in
  let* _ := initCategory category in
  JS.try_catch
    (let turboConfig :=
       hasConfig targetData (fun path => String.eqb path "turbo.json") in
     let* _ := JS.when (negb turboConfig)
       (addIssue category
          (issue SEVERITY_LEVELS.HIGH
             "Missing turbo.json configuration"
             "Monorepo should use Turborepo for build orchestration"
             "turbo.json")) in
     let tsConfig :=
       hasConfig targetData (fun path => String.eqb path "tsconfig.json") in
     let* _ := JS.when (negb tsConfig)
       (addIssue category
          (issue SEVERITY_LEVELS.MEDIUM
             "Missing TypeScript configuration"
             "Should have TypeScript configuration for better development experience"
             "tsconfig.json")) in
     let babelConfig :=
       hasConfig targetData (fun path => JS.includes path "babel.config") in
     JS.when (negb babelConfig)
       (addIssue category
          (issue SEVERITY_LEVELS.MEDIUM
             "Missing Babel configuration"
             "Should have Babel configuration for consistent transpilation"
             "babel.config.json")))
    (fun error => JS.ret tt).

Definition auditCodeQualitySetup (targetData : Client.RepositoryData)
  (commonConfigData : list Client.File.t) : JS.Eff AuditReport unit :=
  let category := AUDIT_CATEGORIES.CODE_QUALITY in
  let* _ := initCategory category in
  JS.try_catch
    (let eslintConfig :=
       hasConfig targetData (fun path =>
         JS.includes path "eslint.config" || JS.includes path ".eslintrc") in
     let* _ := JS.when (negb eslintConfig)
       (addIssue category
          (issue SEVERITY_LEVELS.HIGH
             "Missing ESLint configuration"
             "Should have ESLint configuration for code quality"
             "eslint.config.js")) in
     let prettierConfig :=
       hasConfig targetData (fun path =>
         JS.includes path "prettier.config"
         || JS.includes path ".prettierrc") in
     let* _ := JS.when (negb prettierConfig)
       (addIssue category
          (issue SEVERITY_LEVELS.MEDIUM
             "Missing Prettier configuration"
             "Should have Prettier configuration for consistent formatting"
             "prettier.config.js")) in
     match findRootPackage targetData with
     | None => JS.ret tt
     | Some rootPackage =>
         let* rootPkg :=
           JS.lift (JSON_parse (Client.File.content rootPackage)) in
         let* devDependencies := JS.lift (JS.get rootPkg "devDependencies") in
         let* husky := JS.lift (JS.get_opt devDependencies "husky") in
         let* _ := JS.when (negb (JS.truthy husky))
           (addIssue category
              (issue SEVERITY_LEVELS.MEDIUM
                 "Missing Husky for git hooks"
                 "Should use Husky for pre-commit quality checks"
                 "package.json")) in
         let* devDependencies := JS.lift (JS.get rootPkg "devDependencies") in
         let* lintStaged :=
           JS.lift (JS.get_opt devDependencies "lint-staged") in
         JS.when (negb (JS.truthy lintStaged))
           (addIssue category
              (issue SEVERITY_LEVELS.MEDIUM
                 "Missing lint-staged"
                 "Should use lint-staged for efficient pre-commit linting"
                 "package.json"))
     end)
    (fun error => JS.ret tt).

Definition auditTestingSetup (targetData : Client.RepositoryData)
  (boilerplateData : list Client.File.t) : JS.Eff AuditReport unit :=
  let category := AUDIT_CATEGORIES.TESTING in
  let* _ := initCategory category in
  JS.try_catch
    (let jestConfig :=
       hasConfig targetData (fun path => JS.includes path "jest.config") in
     let* _ := JS.when (negb jestConfig)
       (addIssue category
          (issue SEVERITY_LEVELS.HIGH
             "Missing Jest configuration"
             "Should have Jest configuration for testing"
             "jest.config.js")) in
     match findRootPackage targetData with
     | None => JS.ret tt
     | Some rootPackage =>
         let* rootPkg :=
           JS.lift (JSON_parse (Client.File.content rootPackage)) in
         let* scripts := JS.lift (JS.get rootPkg "scripts") in
         let* test := JS.lift (JS.get_opt scripts "test") in
         let* _ := JS.when (negb (JS.truthy test))
           (addIssue category
              (issue SEVERITY_LEVELS.MEDIUM
                 "Missing test script"
                 "Should have test script in package.json"
                 "package.json")) in
         let* scripts := JS.lift (JS.get rootPkg "scripts") in
         let* testCi := JS.lift (JS.get_opt scripts "test:ci") in
         JS.when (negb (JS.truthy testCi))
           (addIssue category
              (issue SEVERITY_LEVELS.LOW
                 "Missing CI test script"
                 "Should have test:ci script for CI/CD pipelines"
                 "package.json"))
     end)
    (fun error => JS.ret tt).

Definition auditDocumentation (targetData : Client.RepositoryData)
  : JS.Eff AuditReport unit :=
  let category := AUDIT_CATEGORIES.DOCUMENTATION in
  let* _ := initCategory category in
  JS.try_catch
    (addIssue category
       (issue SEVERITY_LEVELS.LOW
          "Documentation audit not fully implemented"
          "README and documentation checks need to be implemented"
          "various"))
    (fun error => JS.ret tt).

(** The six checks and the score, as [auditRepository] runs them on the
    data it fetched. *)
Definition runChecks (targetData : Client.RepositoryData)
  (boilerplateData commonConfigData : list Client.File.t)
  : JS.Eff AuditReport unit :=
  let* _ := auditPackageStructure targetData boilerplateData in
  let* _ := auditDependencyManagement targetData boilerplateData in
  let* _ := auditBuildConfiguration targetData boilerplateData in
  let* _ := auditCodeQualitySetup targetData commonConfigData in
  let* _ := auditTestingSetup targetData boilerplateData in
  let* _ := auditDocumentation targetData in
  calculateComplianceScore.

(** [this.githubClient] and the clock *)
Variable getContent :
  string -> string -> string -> string -> JS.Completion Client.Data.
Variable base64_decode : string -> string.
Variable config : Config.t.
Variable now : string.
Variable timestamp : string.

Definition auditRepository (owner repo : string) : JS.Completion AuditReport :=
  let auditReport := newReport owner repo timestamp in
  fst (JS.try_catch
    (let* targetData :=
       JS.lift (Client.getRepositoryDataChunked getContent base64_decode
                  config now owner repo) in
     let* boilerplateData :=
       JS.lift (Client.getBoilerplateTemplate getContent base64_decode
                  config) in
     let* commonConfigData :=
       JS.lift (Client.getCommonConfig getContent base64_decode config) in
     let* _ := runChecks targetData boilerplateData commonConfigData in
     fun auditReport => (JS.Normal auditReport, auditReport))
    (fun error => JS.lift (JS.Throw error))
    auditReport).

End Checks.

End Engine.


(* ===================================================================== *)
(** * Vocabulary of the specification *)
(* ===================================================================== *)

Module Spec.

Import Config Engine.

(** The penalty table of the specification; a severity outside it (as
    [info]) costs nothing. *)
Definition penalty (severity : string) : Z :=
  if String.eqb severity "critical" then 25
  else if String.eqb severity "high" then 15
  else if String.eqb severity "medium" then 10
  else if String.eqb severity "low" then 5
  else 0.

Definition total_penalty (findings : list Issue) : Z :=
  foldr (fun i acc => penalty (severity i) + acc) 0 findings.

(** What happens to a report between its creation and the final score:
    a category is opened, or a finding is recorded into a category. *)
Inductive Step : Type :=
  | Init (category : string)
  | Add (category : string) (finding : Issue).

Definition step (s : Step) : JS.Eff AuditReport unit :=
  match s with
  | Init category => initCategory category
  | Add category finding => addIssue category finding
  end.

Definition record (l : list Step) : JS.Eff AuditReport unit := JS.for_of l step.

Definition opened (l : list Step) : list string :=
  omap (fun s => match s with Init c => Some c | Add _ _ => None end) l.

Definition recorded (l : list Step) : list Issue :=
  omap (fun s => match s with Init _ => None | Add _ i => Some i end) l.

(** The category after one more finding. *)
Definition with_finding (i : Issue) (cat : Category) : Category :=
  {| issues := issues cat ++ [i];
     score := Z.max 0 (score cat - penalty (severity i)) |}.

(** The summary after one more finding of severity [sev]. *)
Definition bump (sev : string) (s : Summary) : Summary :=
  count_severity sev
    {| totalIssues := totalIssues s + 1; criticalIssues := criticalIssues s;
       highIssues := highIssues s; mediumIssues := mediumIssues s;
       lowIssues := lowIssues s; complianceScore := complianceScore s |}.

(** A severity that has a counter in the summary. *)
Definition graded (i : Issue) : Prop :=
  severity i ∈ [SEVERITY_LEVELS.CRITICAL; SEVERITY_LEVELS.HIGH;
                SEVERITY_LEVELS.MEDIUM; SEVERITY_LEVELS.LOW].

(** The sum of [f] over the categories of a report. *)
Definition sum_over (f : Category -> Z) (m : gmap string Category) : Z :=
  foldr (fun cat acc => f cat + acc) 0 (Object_values m).

Definition issue_count (m : gmap string Category) : Z :=
  sum_over (fun cat => Z.of_nat (length (issues cat))) m.

Definition score_sum (m : gmap string Category) : Z := sum_over score m.

(** [c] is the mean of [m]'s scores rounded to the nearest integer, the
    tie [k + 1/2] going to [k + 1]. *)
Definition rounded_mean (m : gmap string Category) (c : Z) : Prop :=
  let n := Z.of_nat (size m) in
  2 * score_sum m - n < 2 * n * c <= 2 * score_sum m + n.

(** The six categories [auditRepository] evaluates, in its order. *)
Definition six : list string :=
  [AUDIT_CATEGORIES.STRUCTURE; AUDIT_CATEGORIES.DEPENDENCIES;
   AUDIT_CATEGORIES.BUILD; AUDIT_CATEGORIES.CODE_QUALITY;
   AUDIT_CATEGORIES.TESTING; AUDIT_CATEGORIES.DOCUMENTATION].

(** ** Reasoning about effectful code *)

(** Whatever way [m] ends, it takes the object along [R]. *)
Definition evolves {S A : Type} (R : S -> S -> Prop) (m : JS.Eff S A) : Prop :=
  forall s, R s (snd (m s)).

(** [r'] is [r] after some findings were recorded into [category]. *)
Definition adds_to (category : string) (r r' : AuditReport) : Prop :=
  exists l, record (map (Add category) l) r = (JS.Normal tt, r').

(** Every check opens its category and then only records findings into
    it, and it completes normally whatever it was given. *)
Definition check_of (c : string) (m : JS.Eff AuditReport unit) : Prop :=
  forall r, exists r',
    m r = (JS.Normal tt, r') /\ adds_to c (snd (initCategory c r)) r'.

(** The score of every category is what the penalty table says. *)
Definition scored (r : AuditReport) : Prop :=
  forall c cat, categories r !! c = Some cat ->
    score cat = Z.max 0 (100 - total_penalty (issues cat)).

(** The summary counts the findings that the categories hold. *)
Definition counted (r : AuditReport) : Prop :=
  totalIssues (summary r) = issue_count (categories r).

(** The per-severity counters add up to the total. *)
Definition graded_total (s : Summary) : Prop :=
  totalIssues s =
    criticalIssues s + highIssues s + mediumIssues s + lowIssues s.

(** ** The dependency check *)

(** What a manifest object gives [dep] under [field]: [undefined] unless
    [field] is an object that has [dep]. *)
Definition entry (pkg : gmap string JS.Value) (field dep : string)
  : option JS.Value :=
  match pkg !! field with
  | Some (JS.JObject d) => d !! dep
  | _ => None
  end.

(** [dep] is present neither in [dependencies] nor in [devDependencies]. *)
Definition absent (pkg : gmap string JS.Value) (dep : string) : Prop :=
  entry pkg "devDependencies" dep = None /\
  entry pkg "dependencies" dep = None.

(** The finding that names a missing required package. *)
Definition missing_dependency (dep : string) : Issue :=
  issue SEVERITY_LEVELS.MEDIUM
    ("Missing DTSL common dependency: " +:+ dep)
    "Should use DTSL common configurations for consistency"
    "package.json".

(** The findings of severity medium of a category. *)
Definition medium_findings (cat : Category) : list Issue :=
  List.filter (fun i => String.eqb (severity i) SEVERITY_LEVELS.MEDIUM)
              (issues cat).

(** The claim on the dependency check as the specification words it, for
    one parser and one input: [devDependencies] has the key
    [@dtsl/jest-config], the three other required packages are absent, and
    the category then holds exactly the three medium findings that name
    them. *)
Definition dependency_claim (JSON_parse : string -> JS.Completion JS.Value)
  (td : Client.RepositoryData) (bp cc : list Client.File.t)
  (r0 : AuditReport) : Prop :=
  forall rootPackage pkg,
    findRootPackage td = Some rootPackage ->
    JSON_parse (Client.File.content rootPackage) = JS.Normal (JS.JObject pkg) ->
    is_Some (entry pkg "devDependencies" "@dtsl/jest-config") ->
    Forall (absent pkg)
      ["@dtsl/eslint-config"; "@dtsl/prettier-config";
       "@dtsl/typescript-config"] ->
    exists r cat,
      runChecks JSON_parse td bp cc r0 = (JS.Normal tt, r) /\
      categories r !! AUDIT_CATEGORIES.DEPENDENCIES = Some cat /\
      medium_findings cat
      = map missing_dependency
          ["@dtsl/eslint-config"; "@dtsl/prettier-config";
           "@dtsl/typescript-config"].

(** ** The collector *)

(** A computation over a local array whose value, when it returns one, is
    the array itself. *)
Definition yields_array {X : Type} (m : JS.Eff (list X) (list X)) : Prop :=
  forall s a, fst (m s) = JS.Normal a -> a = snd (m s).

(** Code that keeps [P] true of every element of the array. *)
Definition keeps {X : Type} (P : X -> Prop) (s s' : list X) : Prop :=
  Forall P s -> Forall P s'.

(** The claim on failures as the specification words it, for one remote:
    when the first phase, reading the root manifest, fails with an error
    that is not a 404, the collection fails with that error. *)
Definition abort_claim
  (getContent :
     string -> string -> string -> string -> JS.Completion Client.Data)
  (base64_decode : string -> string) (config : Config.t) (now : string)
  (owner repo : string) : Prop :=
  forall e,
    e <> JS.RequestError 404 ->
    getContent owner repo "package.json" (Client.ref config) = JS.Throw e ->
    Client.getRepositoryDataChunked getContent base64_decode config now
      owner repo = JS.Throw e.

(** What the two accessors return; neither ever throws. *)
Definition listing
  (getContent :
     string -> string -> string -> string -> JS.Completion Client.Data)
  (config : Config.t) (owner repo path : string) : list Client.Item.t :=
  match Client.getRepositoryStructure getContent config owner repo path with
  | JS.Normal items => items
  | JS.Throw _ => []
  end.

Definition read
  (getContent :
     string -> string -> string -> string -> JS.Completion Client.Data)
  (base64_decode : string -> string) (config : Config.t)
  (owner repo path : string) : option Client.File.t :=
  match Client.getFileContent getContent base64_decode config owner repo
          path with
  | JS.Normal file => file
  | JS.Throw _ => None
  end.

(** The condition of [getCommonConfig] as JavaScript groups it. *)
Definition selected (item : Client.Item.t) : bool :=
  String.eqb (Client.Item.type item) "file"
    && JS.endsWith (Client.Item.name item) ".json"
  || JS.endsWith (Client.Item.name item) ".js".

(** ** Patterns *)

(** The matching of the specification: [*] stands for any substring, every
    other character for itself, and the match may lie anywhere in the
    name. *)
Fixpoint glob_here (p s : string) : bool :=
  match p with
  | EmptyString => true
  | String c p' =>
      if Ascii.eqb c "*"%char then
        (fix any (s : string) : bool :=
           glob_here p' s ||
           match s with
           | EmptyString => false
           | String _ s' => any s'
           end) s
      else
        match s with
        | EmptyString => false
        | String x s' => Ascii.eqb c x && glob_here p' s'
        end
  end.

Fixpoint glob_test (p s : string) : bool :=
  glob_here p s ||
  match s with
  | EmptyString => false
  | String _ s' => glob_test p s'
  end.

Definition glob_matches (filename : string) (patterns : list string) : bool :=
  existsb (fun p => glob_test p filename) patterns.

(** The claim on [matchesPattern] as the specification words it. *)
Definition glob_claim (filename : string) (patterns : list string) : Prop :=
  Client.matchesPattern filename patterns
  = Some (JS.Normal (glob_matches filename patterns)).

(** The matching the code performs: as above, but [.] stands for any one
    character that is not a line terminator, and [*] for a run of such
    characters. *)
Fixpoint wild_here (p s : string) : bool :=
  match p with
  | EmptyString => true
  | String c p' =>
      if Ascii.eqb c "*"%char then
        (fix run (s : string) : bool :=
           wild_here p' s ||
           match s with
           | EmptyString => false
           | String x s' => negb (JS.RegExp.isLineTerminator x) && run s'
           end) s
      else
        match s with
        | EmptyString => false
        | String x s' =>
            (if Ascii.eqb c "."%char
             then negb (JS.RegExp.isLineTerminator x)
             else Ascii.eqb c x)
            && wild_here p' s'
        end
  end.

Fixpoint wild_test (p s : string) : bool :=
  wild_here p s ||
  match s with
  | EmptyString => false
  | String _ s' => wild_test p s'
  end.

Definition wild_matches (filename : string) (patterns : list string) : bool :=
  existsb (fun p => wild_test p filename) patterns.

(** A character that is [.] or no syntax character of regular
    expressions. *)
Definition ordinary (c : ascii) : bool :=
  Ascii.eqb c "."%char || negb (JS.RegExp.isSyntaxCharacter c).

Fixpoint plain (p : string) : bool :=
  match p with
  | EmptyString => true
  | String c p' => ordinary c && plain p'
  end.

(** A pattern of ordinary characters with at most one [*]. *)
Fixpoint simple (p : string) : bool :=
  match p with
  | EmptyString => true
  | String c p' =>
      if Ascii.eqb c "*"%char then plain p' else ordinary c && simple p'
  end.

End Spec.


(* ===================================================================== *)
(** * Concrete inputs *)
(* ===================================================================== *)

Module Examples.

Import Config Engine Spec.

Definition quoted (s : string) : string :=
  String "034"%char s +:+ String "034"%char EmptyString.

(** A manifest whose only field is [devDependencies], with the one entry
    [@dtsl/jest-config] at version [1.0.0]. *)
Definition jest_text : string :=
  "{" +:+ quoted "devDependencies" +:+ ":{" +:+ quoted "@dtsl/jest-config"
  +:+ ":" +:+ quoted "1.0.0" +:+ "}}".

Definition jest_value : JS.Value :=
  JS.JObject {[ "devDependencies" :=
    JS.JObject {[ "@dtsl/jest-config" := JS.JString "1.0.0" ]} ]}.

(** The same manifest with an empty version string for the package. *)
Definition blank_text : string :=
  "{" +:+ quoted "devDependencies" +:+ ":{" +:+ quoted "@dtsl/jest-config"
  +:+ ":" +:+ quoted "" +:+ "}}".

Definition blank_value : JS.Value :=
  JS.JObject {[ "devDependencies" :=
    JS.JObject {[ "@dtsl/jest-config" := JS.JString "" ]} ]}.

(** [JSON.parse] on the two texts above; any other text is taken to be
    malformed. *)
Definition parse (text : string) : JS.Completion JS.Value :=
  if String.eqb text jest_text then JS.Normal jest_value
  else if String.eqb text blank_text then JS.Normal blank_value
  else JS.Throw JS.SyntaxError.

Definition file (path content : string) : Client.File.t :=
  {| Client.File.path := path; Client.File.content := content;
     Client.File.size := Z.of_nat (String.length content);
     Client.File.sha := "" |}.

Definition dataset (packageFiles configFiles : list Client.File.t)
  : Client.RepositoryData :=
  {| Client.packageFiles := packageFiles;
     Client.configFiles := configFiles;
     Client.metadata :=
       {| Client.Metadata.owner := "DTSL";
          Client.Metadata.repo := "dnd-editor";
          Client.Metadata.fetchedAt := "2024-01-01T00:00:00.000Z";
          Client.Metadata.totalFiles :=
            Z.of_nat (length packageFiles) + Z.of_nat (length configFiles) |}
  |}.

Definition report : AuditReport :=
  newReport "DTSL" "dnd-editor" "2024-01-01T00:00:00.000Z".

Definition finding (severity : string) : Issue :=
  issue severity "message" "description" "file".

(** A recording that leaves the six categories at 100, 75, 90, 60, 85
    and 95. *)
Definition steps_84 : list Step :=
  [Init "A"; Init "B"; Init "C"; Init "D"; Init "E"; Init "F";
   Add "B" (finding "critical");
   Add "C" (finding "medium");
   Add "D" (finding "critical"); Add "D" (finding "high");
   Add "E" (finding "high"); Add "E" (finding "info");
   Add "F" (finding "low")].

Definition report_84 : AuditReport := snd (record steps_84 report).

(** A remote where every request fails with status 503. *)
Definition unavailable (owner repo path ref : string)
  : JS.Completion Client.Data :=
  JS.Throw (JS.RequestError 503).

(** A base64 decoder for the examples, which keep their contents in
    clear. *)
Definition clear (content : string) : string := content.

Definition entry (name type : string) (size : Z) (content : option string)
  : Client.Item.t :=
  {| Client.Item.name := name; Client.Item.path := name;
     Client.Item.type := type; Client.Item.size := size;
     Client.Item.sha := "9daeafb9864cf43055ae93beb0afd6c7d144bfa4";
     Client.Item.content := content |}.

(** A remote whose root holds one entry, the symbolic link [lint.js];
    reading a link answers with the file it points to. *)
Definition linked (owner repo path ref : string) : JS.Completion Client.Data :=
  if String.eqb path "" then
    JS.Normal (Client.Listing [entry "lint.js" "symlink" 12 None])
  else if String.eqb path "lint.js" then
    JS.Normal (Client.Single
      (entry "lint.js" "file" 20 (Some "module.exports = {};")))
  else JS.Throw (JS.RequestError 404).

(** A remote whose root holds a small manifest and a [turbo.json] of
    60000 bytes. *)
Definition oversized (owner repo path ref : string)
  : JS.Completion Client.Data :=
  if String.eqb path "" then
    JS.Normal (Client.Listing
      [entry "package.json" "file" 2 None;
       entry "turbo.json" "file" 60000 None])
  else if String.eqb path "package.json" then
    JS.Normal (Client.Single (entry "package.json" "file" 2 (Some "{}")))
  else if String.eqb path "turbo.json" then
    JS.Normal (Client.Single (entry "turbo.json" "file" 60000 (Some "{}")))
  else JS.Throw (JS.RequestError 404).

End Examples.

(* ===================================================================== *)
(** * Effectful code *)
(* ===================================================================== *)

Module EffFacts.
Import JS Spec.

Section Evolves.
Context {S : Type} (R : S -> S -> Prop) (Hrefl : forall s, R s s)
  (Htrans : forall s1 s2 s3, R s1 s2 -> R s2 s3 -> R s1 s3).

Lemma evolves_ret {A} (a : A) : evolves R (ret a).
Proof. intros s. apply Hrefl. Qed.

Lemma evolves_lift {A} (c : Completion A) : evolves R (lift c).
Proof. intros s. apply Hrefl. Qed.

Lemma evolves_bind {A B} (m : Eff S A) (k : A -> Eff S B) :
  evolves R m -> (forall a, evolves R (k a)) -> evolves R (bind m k).
Proof.
  intros Hm Hk s. unfold bind. specialize (Hm s).
  destruct (m s) as [[a|e] s']; simpl in *; [|done].
  eapply Htrans; [exact Hm | apply Hk].
Qed.

Lemma evolves_bind_lift {A B} (c : Completion A) (k : A -> Eff S B) :
  (forall a, c = Normal a -> evolves R (k a)) -> evolves R (bind (lift c) k).
Proof.
  intros Hk s. unfold bind, lift. destruct c as [a|e]; simpl; [|apply Hrefl].
  by apply Hk.
Qed.

Lemma evolves_try_catch {A} (body : Eff S A) (handler : Error -> Eff S A) :
  evolves R body -> (forall e, evolves R (handler e)) ->
  evolves R (try_catch body handler).
Proof.
  intros Hb Hh s. unfold try_catch. specialize (Hb s).
  destruct (body s) as [[a|e] s']; simpl in *; [done|].
  eapply Htrans; [exact Hb | apply Hh].
Qed.

Lemma evolves_when (b : bool) (m : Eff S unit) :
  evolves R m -> evolves R (when b m).
Proof. intros Hm. destruct b; simpl; [done | apply evolves_ret]. Qed.

Lemma evolves_for_of {X} (l : list X) (body : X -> Eff S unit) :
  (forall x, x ∈ l -> evolves R (body x)) -> evolves R (for_of l body).
Proof.
  induction l as [|x l IH]; intros Hb; simpl; [apply evolves_ret|].
  apply evolves_bind; [apply Hb; left | intros _; apply IH].
  intros y Hy. apply Hb. by right.
Qed.

Lemma evolves_filter_of {X} (l : list X) (p : X -> Eff S bool) :
  (forall x, evolves R (p x)) -> evolves R (filter_of l p).
Proof.
  intros Hp. induction l as [|x l IH]; simpl; [apply evolves_ret|].
  apply evolves_bind; [apply Hp | intros keep].
  apply evolves_bind; [apply IH | intros rest; apply evolves_ret].
Qed.

End Evolves.

(** A [try] whose handler swallows the error always completes normally. *)
Lemma try_catch_swallow {S} (body : Eff S unit) (s : S) :
  fst (try_catch body (fun _ => ret tt) s) = Normal tt.
Proof. unfold try_catch. by destruct (body s) as [[[]|e] s']. Qed.

Lemma for_of_app {S X} (l1 l2 : list X) (body : X -> Eff S unit) (s : S) :
  for_of (l1 ++ l2) body s = bind (for_of l1 body) (fun _ => for_of l2 body) s.
Proof.
  revert s. induction l1 as [|x l1 IH]; intros s; simpl; [done|].
  unfold bind. destruct (body x s) as [[[]|e] s']; [|done].
  rewrite IH. done.
Qed.

End EffFacts.

(* ===================================================================== *)
(** * The client: accessors and collector *)
(* ===================================================================== *)

Module ClientFacts.
Import JS Config Client Spec EffFacts.


(** ** Local arrays *)

Lemma keeps_refl {X} (P : X -> Prop) s : keeps P s s.
Proof. by intros H. Qed.

Lemma keeps_trans {X} (P : X -> Prop) s1 s2 s3 :
  keeps P s1 s2 -> keeps P s2 s3 -> keeps P s1 s3.
Proof. unfold keeps. auto. Qed.

Lemma evolves_push_if_present {X} (P : X -> Prop) (o : option X) :
  (forall x, o = Some x -> P x) -> evolves (keeps P) (push_if_present o).
Proof.
  intros Ho s Hs. destruct o as [x|]; simpl; [|done].
  apply Forall_app. split; [done|]. constructor; [by apply Ho|constructor].
Qed.

Lemma evolves_array {X} (P : X -> Prop) : evolves (keeps P) (@array X).
Proof. intros s. apply keeps_refl. Qed.

Lemma yields_array_array {X} : yields_array (@array X).
Proof. intros s a H. simpl in *. by inversion H. Qed.

Lemma yields_array_bind {X A} (m : Eff (list X) A) k :
  (forall a, yields_array (k a)) -> yields_array (bind m k).
Proof.
  intros Hk s a. unfold bind. destruct (m s) as [[b|e] s']; simpl.
  - apply Hk.
  - discriminate.
Qed.

(** A [try] over a local array that returns the array on both paths
    returns it as it is at the end, and never throws. *)
Lemma with_array_try {X} (body : Eff (list X) (list X)) (P : X -> Prop) :
  yields_array body -> evolves (keeps P) body ->
  exists files,
    with_array (try_catch body (fun _ => array)) = Normal files /\
    Forall P files.
Proof.
  intros Hy He. unfold with_array, try_catch.
  specialize (Hy []). specialize (He [] (Forall_nil_2 P)).
  destruct (body []) as [[a|e] s']; simpl in *.
  - exists a. split; [done|]. by rewrite (Hy a eq_refl).
  - by exists s'.
Qed.

Section Client.
Context (getContent : string -> string -> string -> string -> Completion Data)
  (base64_decode : string -> string) (config : Config.t) (now : string).

(** ** The two accessors *)

Lemma getRepositoryStructure_eq owner repo path :
  Client.getRepositoryStructure getContent config owner repo path =
    Normal match getContent owner repo path (ref config) with
           | Normal (Listing items) => items
           | Normal (Single item) => [item]
           | Throw _ => []
           end.
Proof.
  unfold Client.getRepositoryStructure, run, try_catch, bind, lift.
  by destruct (getContent owner repo path (ref config)) as [[]|].
Qed.

Lemma getFileContent_eq owner repo path :
  Client.getFileContent getContent base64_decode config owner repo path =
    Normal match getContent owner repo path (ref config) with
           | Normal (Single data) =>
               if Item.size data >? maxFileSize (chunking config) then None
               else
                 match Item.content data with
                 | Some content =>
                     Some {| File.path := Item.path data;
                             File.content := base64_decode content;
                             File.size := Item.size data;
                             File.sha := Item.sha data |}
                 | None => None
                 end
           | _ => None
           end.
Proof.
  unfold Client.getFileContent, run, try_catch, bind, lift.
  destruct (getContent owner repo path (ref config)) as [[items|data]|e];
    simpl; try reflexivity.
  destruct (Item.size data >? maxFileSize (chunking config)); [reflexivity|].
  by destruct (Item.content data).
Qed.

Lemma getFileContent_size owner repo path f :
  Client.getFileContent getContent base64_decode config owner repo path
  = Normal (Some f) ->
  File.size f <= maxFileSize (chunking config).
Proof.
  rewrite getFileContent_eq. intros H. inversion H as [H1]; clear H.
  destruct (getContent owner repo path (ref config)) as [[items|data]|e];
    try discriminate.
  destruct (Z.gtb_spec (Item.size data) (maxFileSize (chunking config)));
    [discriminate|].
  destruct (Item.content data); [|discriminate].
  inversion H1; subst f. simpl. lia.
Qed.

(** ** The collector *)

Section Collected.
(** Any property of the files that [getFileContent] returns holds of the
    files collected. *)
Context (P : File.t -> Prop)
  (HP : forall owner repo path f,
      Client.getFileContent getContent base64_decode config owner repo path
      = Normal (Some f) -> P f).

Ltac collect :=
  repeat first
    [ apply evolves_array
    | apply evolves_push_if_present; intros; eapply HP; subst; eassumption
    | apply evolves_ret; [apply keeps_refl]
    | apply evolves_lift; [apply keeps_refl]
    | apply evolves_when; [apply keeps_refl|]
    | apply evolves_for_of; [apply keeps_refl|apply keeps_trans|intros ? ?]
    | apply evolves_bind_lift; [apply keeps_refl|intros ? ?]
    | apply evolves_bind; [apply keeps_trans| |intros ?]
    | progress cbv beta zeta
    | match goal with |- evolves _ (match ?x with _ => _ end) => destruct x end
    | match goal with |- evolves _ (if ?x then _ else _) => destruct x end ].

Ltac yield :=
  repeat first
    [ apply yields_array_array
    | apply yields_array_bind; intros ? ].

Lemma getPackageJsonFiles_collected owner repo :
  exists files,
    Client.getPackageJsonFiles getContent base64_decode config owner repo
    = Normal files /\
    Forall P files.
Proof.
  unfold Client.getPackageJsonFiles. apply with_array_try; [yield|collect].
Qed.

Lemma getConfigFiles_collected owner repo :
  exists files,
    Client.getConfigFiles getContent base64_decode config owner repo
    = Normal files /\
    Forall P files.
Proof.
  unfold Client.getConfigFiles. apply with_array_try; [yield|collect].
Qed.

Lemma getRepositoryDataChunked_collected owner repo :
  exists d,
    Client.getRepositoryDataChunked getContent base64_decode config now
      owner repo = Normal d /\
    Forall P (packageFiles d) /\ Forall P (configFiles d).
Proof.
  destruct (getPackageJsonFiles_collected owner repo) as (pf & Hpf & HPpf).
  destruct (getConfigFiles_collected owner repo) as (cf & Hcf & HPcf).
  unfold Client.getRepositoryDataChunked, run, try_catch, bind, lift.
  rewrite Hpf, Hcf. simpl. eexists. split; [reflexivity|]. by split.
Qed.

End Collected.

End Client.

Lemma for_of_collect {X Y} (l : list X) (body : X -> Eff (list Y) unit)
    (g : X -> option Y) :
  (forall x s, body x s = (Normal tt, s ++ option_list (g x))) ->
  forall s, for_of l body s = (Normal tt, s ++ omap g l).
Proof.
  intros Hb. induction l as [|x l IH]; intros s; simpl.
  - by rewrite app_nil_r.
  - unfold bind. rewrite Hb, IH, <- app_assoc. by destruct (g x).
Qed.

Section CommonConfig.
Context (getContent : string -> string -> string -> string -> Completion Data)
  (base64_decode : string -> string) (config : Config.t).

Lemma run_try_catch_ret {A} (body : Eff unit A) (a : A) :
  exists x, run (try_catch body (fun _ => ret a)) = Normal x.
Proof.
  unfold run, try_catch. destruct (body tt) as [[x|e] []]; by eexists.
Qed.

(** The fetch reads, in the order of the listing, every root entry that
    the condition selects, and returns the files it could read. *)
Lemma getCommonConfig_eq :
  let repository := commonConfig (repositories config) in
  getCommonConfig getContent base64_decode config =
    Normal
      (omap (fun item =>
               if selected item
               then read getContent base64_decode config
                      (Config.owner repository) (Config.repo repository)
                      (Item.path item)
               else None)
            (listing getContent config
               (Config.owner repository) (Config.repo repository) "")).
Proof.
  intros repository. unfold getCommonConfig, listing, read.
  fold repository. rewrite getRepositoryStructure_eq.
  unfold run, try_catch, bind, lift, with_array. simpl.
  erewrite for_of_collect; [reflexivity|].
  intros item s. unfold selected. simpl.
  destruct (_ || _); [|by rewrite app_nil_r].
  rewrite getFileContent_eq. simpl.
  match goal with |- context [push_if_present ?o] => destruct o end;
    simpl; [reflexivity|by rewrite app_nil_r].
Qed.

(** A root entry of type [file] whose name ends in [.json] or [.js] and
    whose read returns a file has that file in the result. *)
Lemma getCommonConfig_includes item file :
  let repository := commonConfig (repositories config) in
  item ∈ listing getContent config
           (Config.owner repository) (Config.repo repository) "" ->
  Item.type item = "file" ->
  endsWith (Item.name item) ".json" || endsWith (Item.name item) ".js" = true ->
  getFileContent getContent base64_decode config
    (Config.owner repository) (Config.repo repository) (Item.path item)
  = Normal (Some file) ->
  exists files,
    getCommonConfig getContent base64_decode config = Normal files /\
    file ∈ files.
Proof.
  intros repository Hin Htype Hname Hread. eexists. split.
  - apply getCommonConfig_eq.
  - apply list_elem_of_omap. exists item. split; [exact Hin|].
    unfold selected, read. fold repository. rewrite Htype, Hread. simpl.
    apply orb_true_iff in Hname as [->| ->]; [reflexivity|].
    by rewrite orb_true_r.
Qed.

Lemma getBoilerplateTemplate_normal :
  exists bp, getBoilerplateTemplate getContent base64_decode config = Normal bp.
Proof. unfold getBoilerplateTemplate. cbv zeta. apply run_try_catch_ret. Qed.

End CommonConfig.

End ClientFacts.

(* ===================================================================== *)
(** * The client: patterns *)
(* ===================================================================== *)

Module PatternFacts.
Import JS JS.RegExp Client Spec.

Lemma ordinary_not_star c : ordinary c = true -> Ascii.eqb c "*" = false.
Proof. destruct (Ascii.eqb_spec c "*") as [->|]; [discriminate|done]. Qed.

Lemma ordinary_atom c :
  ordinary c = true ->
  exists a, atom_of c = Some a /\
    forall x, atom_matches a x
              = if Ascii.eqb c "." then negb (isLineTerminator x)
                else Ascii.eqb c x.
Proof.
  unfold ordinary, atom_of. intros H.
  destruct (Ascii.eqb c ".") eqn:Hdot.
  - by exists ADot.
  - simpl in H. apply negb_true_iff in H. rewrite H. by exists (AChar c).
Qed.

(** An atom that no [*] follows is a term by itself. *)
Lemma compile_one c rest a :
  Ascii.eqb c "*" = false -> atom_of c = Some a ->
  (forall rest', rest <> String "*" rest') ->
  compile (String c rest) = cons_term (One a) (compile rest).
Proof.
  intros Hc Ha Hrest. simpl. rewrite Hc, Ha.
  destruct rest as [|x rest']; [reflexivity|].
  destruct (Ascii.eqb_spec x "*") as [->|Hx]; [by destruct (Hrest rest')|].
  destruct x as [[] [] [] [] [] [] [] []]; try reflexivity. by destruct Hx.
Qed.

Lemma plain_head p rest' : plain p = true -> p <> String "*" rest'.
Proof. intros H ->. discriminate H. Qed.

Lemma plain_tail c p :
  plain (String c p) = true -> ordinary c = true /\ plain p = true.
Proof. simpl. by intros [? ?]%andb_true_iff. Qed.

Lemma compile_plain p :
  plain p = true ->
  exists r, compile p = Compiled r /\
    forall s, match_here r s = wild_here p s.
Proof.
  induction p as [|c p IH]; intros Hp.
  - by exists [].
  - apply plain_tail in Hp as [Hc Hp].
    destruct (IH Hp) as (r & Hr & Hm).
    destruct (ordinary_atom c Hc) as (a & Ha & Hatom).
    pose proof (ordinary_not_star c Hc) as Hstar.
    exists (One a :: r). split.
    + rewrite (compile_one c p a Hstar Ha); [by rewrite Hr|].
      intros rest'. by apply plain_head.
    + intros s. simpl. rewrite Hstar. destruct s as [|x s]; [reflexivity|].
      by rewrite Hatom, Hm.
Qed.

(** After its first [*] became [.*], a pattern does not start with [*]. *)
Lemma replace_head p rest' : replace p "*" ".*" <> String "*" rest'.
Proof.
  destruct p as [|c p]; simpl; [discriminate|].
  destruct (Ascii.eqb_spec c "*") as [->|Hc]; simpl; [discriminate|].
  intros H. inversion H. by destruct Hc.
Qed.

Lemma compile_simple p :
  simple p = true ->
  exists r, compile (replace p "*" ".*") = Compiled r /\
    forall s, match_here r s = wild_here p s.
Proof.
  induction p as [|c p IH]; intros Hp.
  - by exists [].
  - simpl in Hp. destruct (Ascii.eqb c "*") eqn:Hstar.
    + apply Ascii.eqb_eq in Hstar as ->.
      destruct (compile_plain p Hp) as (r & Hr & Hm).
      exists (Star ADot :: r). split.
      * change (compile (replace (String "*" p) "*" ".*"))
          with (cons_term (Star ADot) (compile p)).
        by rewrite Hr.
      * intros s. simpl. induction s as [|x s IHs]; rewrite Hm; [reflexivity|].
        by rewrite IHs.
    + apply andb_true_iff in Hp as [Hc Hp].
      destruct (IH Hp) as (r & Hr & Hm).
      destruct (ordinary_atom c Hc) as (a & Ha & Hatom).
      exists (One a :: r). split.
      * cbn [replace]. rewrite Hstar.
        rewrite (compile_one c _ a Hstar Ha); [by rewrite Hr|].
        apply replace_head.
      * intros s. simpl. rewrite Hstar. destruct s as [|x s]; [reflexivity|].
        by rewrite Hatom, Hm.
Qed.

Lemma test_wild r p :
  (forall s, match_here r s = wild_here p s) ->
  forall s, test r s = wild_test p s.
Proof.
  intros Hm s. induction s as [|x s IH]; simpl; rewrite Hm; [reflexivity|].
  by rewrite IH.
Qed.

Lemma configPatterns_simple : Forall (fun p => simple p = true) configPatterns.
Proof. repeat constructor. Qed.

(** The patterns of [getConfigFiles] are in the fragment and compile: the
    selection of the root-level configuration files never throws. *)
Lemma configPatterns_compile :
  Forall (fun p => exists r, compile (replace p "*" ".*") = Compiled r)
         configPatterns.
Proof. repeat constructor; eexists; reflexivity. Qed.

End PatternFacts.

(* ===================================================================== *)
(** * The engine: checks *)
(* ===================================================================== *)

Module EngineFacts.
Import JS Config Engine Spec EffFacts.

(** ** [addIssue] *)

Lemma deduct_penalty sev s : deduct sev s = s - penalty sev.
Proof.
  unfold deduct, penalty, SEVERITY_LEVELS.CRITICAL, SEVERITY_LEVELS.HIGH,
    SEVERITY_LEVELS.MEDIUM, SEVERITY_LEVELS.LOW.
  repeat case_match; lia.
Qed.

Lemma penalty_range sev : 0 <= penalty sev <= 25.
Proof. unfold penalty. repeat case_match; lia. Qed.

Lemma addIssue_present c i r cat :
  categories r !! c = Some cat ->
  addIssue c i r =
    (Normal tt,
     set_categories (set_summary r (bump (severity i) (summary r)))
       (<[c := with_finding i cat]> (categories r))).
Proof.
  intros H. unfold addIssue. rewrite H. unfold with_finding, bump, Math_max.
  by rewrite deduct_penalty.
Qed.

Lemma addIssue_absent c i r :
  categories r !! c = None -> addIssue c i r = (Throw TypeError, r).
Proof. intros H. unfold addIssue. by rewrite H. Qed.

Lemma addIssue_normal c i r r' :
  addIssue c i r = (Normal tt, r') ->
  exists cat, categories r !! c = Some cat /\
    r' = set_categories (set_summary r (bump (severity i) (summary r)))
           (<[c := with_finding i cat]> (categories r)).
Proof.
  intros H. destruct (categories r !! c) as [cat|] eqn:E.
  - exists cat. split; [done|]. rewrite (addIssue_present _ _ _ _ E) in H.
    by inversion H.
  - rewrite (addIssue_absent _ _ _ E) in H. inversion H.
Qed.

Lemma totalIssues_bump sev s : totalIssues (bump sev s) = totalIssues s + 1.
Proof. unfold bump, count_severity. by repeat case_match. Qed.

Lemma complianceScore_bump sev s :
  complianceScore (bump sev s) = complianceScore s.
Proof. unfold bump, count_severity. by repeat case_match. Qed.


(** ** Reports that differ by findings recorded into one category *)

Lemma record_app l1 l2 r :
  record (l1 ++ l2) r = bind (record l1) (fun _ => record l2) r.
Proof. apply for_of_app. Qed.

Lemma adds_to_refl c r : adds_to c r r.
Proof. by exists []. Qed.

Lemma adds_to_trans c r1 r2 r3 :
  adds_to c r1 r2 -> adds_to c r2 r3 -> adds_to c r1 r3.
Proof.
  intros [l1 H1] [l2 H2]. exists (l1 ++ l2).
  rewrite map_app, record_app. unfold bind. rewrite H1. exact H2.
Qed.

Lemma evolves_addIssue c i : evolves (adds_to c) (addIssue c i).
Proof.
  intros r. destruct (categories r !! c) as [cat|] eqn:E.
  - exists [i]. unfold record. simpl. unfold bind.
    rewrite (addIssue_present _ _ _ _ E). reflexivity.
  - rewrite (addIssue_absent _ _ _ E). apply adds_to_refl.
Qed.

#[local] Hint Resolve adds_to_refl adds_to_trans : core.

Ltac evolve :=
  repeat first
    [ apply evolves_addIssue
    | apply evolves_ret; [auto]
    | apply evolves_lift; [auto]
    | apply evolves_when; [auto|]
    | apply evolves_try_catch; [eauto| |intros ?]
    | apply evolves_for_of; [auto|eauto|intros ? ?]
    | apply evolves_filter_of; [auto|eauto|intros ?]
    | apply evolves_bind; [eauto| |intros ?]
    | progress cbv beta zeta
    | match goal with |- evolves _ (match ?x with _ => _ end) => destruct x end
    | match goal with |- evolves _ (if ?x then _ else _) => destruct x end ].

Section Checks.
Context (JSON_parse : string -> Completion Value).

Lemma evolves_isMissingDep c v dep : evolves (adds_to c) (isMissingDep v dep).
Proof. unfold isMissingDep. evolve. Qed.

Lemma evolves_usesLodash c v : evolves (adds_to c) (usesLodash v).
Proof. unfold usesLodash. evolve. Qed.

Lemma check_of_intro c body :
  evolves (adds_to c) body ->
  check_of c (let* _ := initCategory c in try_catch body (fun _ => ret tt)).
Proof.
  intros Hb r. unfold bind. simpl.
  set (r1 := set_categories r _).
  pose proof (try_catch_swallow body r1) as Hn.
  assert (Hs : adds_to c r1 (snd (try_catch body (fun _ => ret tt) r1))).
  { apply evolves_try_catch; eauto. intros e. apply evolves_ret. auto. }
  destruct (try_catch body (fun _ => ret tt) r1) as [o r'].
  simpl in *. subst o. by exists r'.
Qed.

Lemma check_auditPackageStructure td bp :
  check_of AUDIT_CATEGORIES.STRUCTURE (auditPackageStructure JSON_parse td bp).
Proof. apply check_of_intro. evolve. Qed.

Lemma check_auditDependencyManagement td bp :
  check_of AUDIT_CATEGORIES.DEPENDENCIES
    (auditDependencyManagement JSON_parse td bp).
Proof.
  apply check_of_intro. evolve.
  all: first [apply evolves_isMissingDep | apply evolves_usesLodash].
Qed.

Lemma check_auditBuildConfiguration td bp :
  check_of AUDIT_CATEGORIES.BUILD (auditBuildConfiguration td bp).
Proof. apply check_of_intro. evolve. Qed.

Lemma check_auditCodeQualitySetup td cc :
  check_of AUDIT_CATEGORIES.CODE_QUALITY
    (auditCodeQualitySetup JSON_parse td cc).
Proof. apply check_of_intro. evolve. Qed.

Lemma check_auditTestingSetup td bp :
  check_of AUDIT_CATEGORIES.TESTING (auditTestingSetup JSON_parse td bp).
Proof. apply check_of_intro. evolve. Qed.

Lemma check_auditDocumentation td :
  check_of AUDIT_CATEGORIES.DOCUMENTATION (auditDocumentation td).
Proof. apply check_of_intro. evolve. Qed.


Lemma check_of_record c m :
  check_of c m ->
  forall r, exists l r',
    m r = (Normal tt, r') /\
    record (Init c :: map (Add c) l) r = (Normal tt, r').
Proof.
  intros Hm r. destruct (Hm r) as (r' & Hrun & l & Hl).
  exists l, r'. split; [done|]. unfold record. simpl. unfold bind. simpl.
  exact Hl.
Qed.

Lemma opened_adds c l : opened (map (Add c) l) = [].
Proof. induction l; simpl; auto. Qed.

Lemma opened_app l1 l2 : opened (l1 ++ l2) = opened l1 ++ opened l2.
Proof. unfold opened. apply omap_app. Qed.

Lemma record_then l1 l2 r r1 r2 :
  record l1 r = (Normal tt, r1) -> record l2 r1 = (Normal tt, r2) ->
  record (l1 ++ l2) r = (Normal tt, r2).
Proof. intros H1 H2. rewrite record_app. unfold bind. by rewrite H1. Qed.

(** The whole evaluation is a recording of steps that opens the six
    categories once each, followed by the score. *)
Lemma runChecks_record td bp cc r0 :
  exists l r6,
    record l r0 = (Normal tt, r6) /\ opened l = six /\
    runChecks JSON_parse td bp cc r0 =
      (Normal tt, snd (calculateComplianceScore r6)).
Proof.
  destruct (check_of_record _ _ (check_auditPackageStructure td bp) r0)
    as (l1 & r1 & E1 & R1).
  destruct (check_of_record _ _ (check_auditDependencyManagement td bp) r1)
    as (l2 & r2 & E2 & R2).
  destruct (check_of_record _ _ (check_auditBuildConfiguration td bp) r2)
    as (l3 & r3 & E3 & R3).
  destruct (check_of_record _ _ (check_auditCodeQualitySetup td cc) r3)
    as (l4 & r4 & E4 & R4).
  destruct (check_of_record _ _ (check_auditTestingSetup td bp) r4)
    as (l5 & r5 & E5 & R5).
  destruct (check_of_record _ _ (check_auditDocumentation td) r5)
    as (l6 & r6 & E6 & R6).
  eexists _, r6. split; [|split].
  - eapply record_then; [exact R1|].
    eapply record_then; [exact R2|].
    eapply record_then; [exact R3|].
    eapply record_then; [exact R4|].
    eapply record_then; [exact R5|exact R6].
  - rewrite !opened_app. simpl. by rewrite !opened_adds.
  - unfold runChecks, bind. by rewrite E1, E2, E3, E4, E5, E6.
Qed.

End Checks.

(** ** Sums over the categories *)

Lemma sum_perm {A} (f : A -> Z) (l1 l2 : list A) :
  l1 ≡ₚ l2 ->
  foldr (fun x acc => f x + acc) 0 l1 = foldr (fun x acc => f x + acc) 0 l2.
Proof. induction 1; simpl; lia. Qed.

Lemma sum_over_empty f : sum_over f ∅ = 0.
Proof. unfold sum_over, Object_values. by rewrite map_to_list_empty. Qed.

Lemma sum_over_insert_fresh f (m : gmap string Category) c x :
  m !! c = None -> sum_over f (<[c:=x]> m) = f x + sum_over f m.
Proof.
  intros H. unfold sum_over, Object_values.
  rewrite (sum_perm f _ (x :: (map_to_list m).*2)); [done|].
  by rewrite (map_to_list_insert _ _ _ H).
Qed.

Lemma sum_over_insert f (m : gmap string Category) c x old :
  m !! c = Some old -> sum_over f (<[c:=x]> m) = f x + sum_over f m - f old.
Proof.
  intros H. rewrite <- (insert_delete_eq m c x).
  rewrite sum_over_insert_fresh by apply lookup_delete_eq.
  rewrite <- (insert_delete_id m c old) at 2 by done.
  rewrite (sum_over_insert_fresh f (delete c m) c old)
    by apply lookup_delete_eq.
  lia.
Qed.

Lemma sum_fold_left (l : list Z) (a : Z) :
  fold_left (fun sum score => sum + score) l a = a + foldr Z.add 0 l.
Proof.
  revert a. induction l as [|x l IH]; intros a; simpl; [lia|].
  rewrite IH. lia.
Qed.

End EngineFacts.

(* ===================================================================== *)
(** * The engine: recordings *)
(* ===================================================================== *)

Module RecordFacts.
Import JS Config Engine Spec EffFacts EngineFacts.

Lemma record_cons_normal s l r r' :
  record (s :: l) r = (Normal tt, r') ->
  exists r1, step s r = (Normal tt, r1) /\ record l r1 = (Normal tt, r').
Proof.
  unfold record. simpl. unfold bind. intros H.
  destruct (step s r) as [[[]|e] r1]; [by exists r1 | inversion H].
Qed.

(** An invariant of reports that every successful step keeps is kept by
    every successful recording. *)
Lemma record_invariant (P : AuditReport -> Prop) l :
  (forall s r r', s ∈ l -> step s r = (Normal tt, r') -> P r -> P r') ->
  forall r r', record l r = (Normal tt, r') -> P r -> P r'.
Proof.
  induction l as [|s l IH]; intros Hstep r r' Hrun HP.
  - inversion Hrun. by subst.
  - apply record_cons_normal in Hrun as (r1 & H1 & Hrest).
    eapply IH; [|exact Hrest|].
    + intros s' ra rb Hin. apply Hstep. by right.
    + eapply Hstep; [left|exact H1|exact HP].
Qed.

(** ** Scores *)

Lemma total_penalty_app l1 l2 :
  total_penalty (l1 ++ l2) = total_penalty l1 + total_penalty l2.
Proof. unfold total_penalty. induction l1; simpl; lia. Qed.

Lemma total_penalty_nonneg l : 0 <= total_penalty l.
Proof.
  unfold total_penalty. induction l as [|i l IH]; simpl; [lia|].
  pose proof (penalty_range (severity i)). lia.
Qed.

Lemma score_with_finding i cat :
  score cat = Z.max 0 (100 - total_penalty (issues cat)) ->
  score (with_finding i cat)
  = Z.max 0 (100 - total_penalty (issues (with_finding i cat))).
Proof.
  intros H. simpl. rewrite total_penalty_app, H. simpl.
  pose proof (penalty_range (severity i)). lia.
Qed.

Lemma scored_step s r r' : step s r = (Normal tt, r') -> scored r -> scored r'.
Proof.
  destruct s as [c|c i]; simpl; intros Hs Hr c' cat' Hc'.
  - inversion Hs; subst; clear Hs. simpl in Hc'.
    destruct (decide (c = c')) as [->|Hne].
    + rewrite lookup_insert_eq in Hc'. by inversion Hc'.
    + rewrite lookup_insert_ne in Hc' by done. by apply (Hr c').
  - apply addIssue_normal in Hs as (cat & Hc & ->). simpl in Hc'.
    destruct (decide (c = c')) as [->|Hne].
    + rewrite lookup_insert_eq in Hc'. inversion Hc'; subst.
      apply score_with_finding. by apply (Hr c').
    + rewrite lookup_insert_ne in Hc' by done. by apply (Hr c').
Qed.

Lemma scored_new owner repo now : scored (newReport owner repo now).
Proof. intros c cat H. simpl in H. by rewrite lookup_empty in H. Qed.

Lemma scored_record l owner repo now r :
  record l (newReport owner repo now) = (Normal tt, r) -> scored r.
Proof.
  intros H. eapply (record_invariant scored); [|exact H|apply scored_new].
  intros s ra rb _. apply scored_step.
Qed.

(** ** Which categories a recording touches *)

Lemma step_lookup_ne s r r' c :
  step s r = (Normal tt, r') ->
  match s with Init c' | Add c' _ => c' ≠ c end ->
  categories r' !! c = categories r !! c.
Proof.
  destruct s as [c'|c' i]; simpl; intros Hs Hne.
  - inversion Hs; subst. simpl. by rewrite lookup_insert_ne.
  - apply addIssue_normal in Hs as (cat & Hc & ->). simpl.
    by rewrite lookup_insert_ne.
Qed.

Lemma adds_to_lookup_ne c r r' c' :
  adds_to c r r' -> c ≠ c' -> categories r' !! c' = categories r !! c'.
Proof.
  intros [l Hl] Hne. revert r Hl. induction l as [|i l IH]; intros r Hl.
  - inversion Hl. by subst.
  - simpl in Hl. apply record_cons_normal in Hl as (r1 & H1 & Hrest).
    rewrite (IH _ Hrest). by apply (step_lookup_ne _ _ _ _ H1).
Qed.

Lemma check_of_lookup_ne c m r r' c' :
  check_of c m -> m r = (Normal tt, r') -> c ≠ c' ->
  categories r' !! c' = categories r !! c'.
Proof.
  intros Hm Hrun Hne. destruct (Hm r) as (r'' & Hrun' & Hadds).
  rewrite Hrun in Hrun'. inversion Hrun'; subst r''.
  rewrite (adds_to_lookup_ne _ _ _ _ Hadds Hne). simpl.
  by rewrite lookup_insert_ne.
Qed.

Lemma step_dom s r r' :
  step s r = (Normal tt, r') ->
  dom (categories r') = dom (categories r) ∪ list_to_set (opened [s]).
Proof.
  destruct s as [c|c i]; simpl; intros Hs.
  - inversion Hs; subst. simpl. rewrite dom_insert_L. set_solver.
  - apply addIssue_normal in Hs as (cat & Hc & ->). simpl.
    rewrite dom_insert_L. apply elem_of_dom_2 in Hc. set_solver.
Qed.

Lemma record_dom l r r' :
  record l r = (Normal tt, r') ->
  dom (categories r') = dom (categories r) ∪ list_to_set (opened l).
Proof.
  revert r. induction l as [|s l IH]; intros r H.
  - inversion H; subst. simpl. set_solver.
  - apply record_cons_normal in H as (r1 & H1 & Hrest).
    rewrite (IH _ Hrest), (step_dom _ _ _ H1).
    change (s :: l) with ([s] ++ l). rewrite opened_app. set_solver.
Qed.

(** ** Counters *)

Lemma counted_step s r r' :
  step s r = (Normal tt, r') ->
  match s with Init c => categories r !! c = None | Add _ _ => True end ->
  counted r -> counted r'.
Proof.
  unfold counted, issue_count.
  destruct s as [c|c i]; simpl; intros Hs Hfresh Hr.
  - inversion Hs; subst. simpl.
    rewrite sum_over_insert_fresh by done. simpl. lia.
  - apply addIssue_normal in Hs as (cat & Hc & ->). simpl.
    rewrite totalIssues_bump, (sum_over_insert _ _ _ _ _ Hc). simpl.
    rewrite length_app. simpl. lia.
Qed.

Lemma counted_record l r r' :
  NoDup (opened l) ->
  (forall c, c ∈ opened l -> categories r !! c = None) ->
  record l r = (Normal tt, r') -> counted r -> counted r'.
Proof.
  revert r. induction l as [|s l IH]; intros r Hnd Hfresh Hrun Hr.
  - inversion Hrun. by subst.
  - apply record_cons_normal in Hrun as (r1 & H1 & Hrest).
    change (s :: l) with ([s] ++ l) in Hnd, Hfresh.
    rewrite opened_app in Hnd, Hfresh.
    apply (IH r1); [| |exact Hrest|].
    + destruct s; simpl in Hnd; [by apply NoDup_cons in Hnd as [_ ?]|done].
    + intros c Hc. destruct s as [c0|c0 i].
      * simpl in Hnd. apply NoDup_cons in Hnd as [Hnot _].
        rewrite (step_lookup_ne _ _ _ c H1).
        -- apply Hfresh. simpl. by right.
        -- simpl. intros ->. done.
      * rewrite (step_lookup_ne _ _ _ c H1); [by apply Hfresh|].
        simpl. intros ->. apply addIssue_normal in H1 as (cat & Hc0 & _).
        rewrite Hfresh in Hc0; [done|exact Hc].
    + apply (counted_step _ _ _ H1); [|done].
      destruct s as [c0|]; [|done]. apply Hfresh. simpl. left.
Qed.

Lemma bump_graded sev s :
  sev ∈ [SEVERITY_LEVELS.CRITICAL; SEVERITY_LEVELS.HIGH;
         SEVERITY_LEVELS.MEDIUM; SEVERITY_LEVELS.LOW] ->
  graded_total s -> graded_total (bump sev s).
Proof.
  unfold graded_total. intros Hsev Hs.
  repeat (apply elem_of_cons in Hsev as [->|Hsev]); [simpl; lia ..|].
  by apply elem_of_nil in Hsev.
Qed.

Lemma graded_step s r r' :
  step s r = (Normal tt, r') ->
  match s with Init _ => True | Add _ i => graded i end ->
  graded_total (summary r) -> graded_total (summary r').
Proof.
  destruct s as [c|c i]; simpl; intros Hs Hg Hr.
  - by inversion Hs; subst.
  - apply addIssue_normal in Hs as (cat & Hc & ->). simpl.
    by apply bump_graded.
Qed.

Lemma graded_record l r r' :
  Forall graded (recorded l) ->
  record l r = (Normal tt, r') ->
  graded_total (summary r) -> graded_total (summary r').
Proof.
  revert r. induction l as [|s l IH]; intros r Hg Hrun Hr.
  - inversion Hrun. by subst.
  - apply record_cons_normal in Hrun as (r1 & H1 & Hrest).
    destruct s as [c|c i]; simpl in Hg.
    + apply (IH r1 Hg Hrest). by apply (graded_step _ _ _ H1).
    + apply Forall_cons in Hg as [Hi Hg].
      apply (IH r1 Hg Hrest). by apply (graded_step _ _ _ H1).
Qed.

Lemma bump_info s :
  bump SEVERITY_LEVELS.INFO s =
    {| totalIssues := totalIssues s + 1; criticalIssues := criticalIssues s;
       highIssues := highIssues s; mediumIssues := mediumIssues s;
       lowIssues := lowIssues s; complianceScore := complianceScore s |}.
Proof. reflexivity. Qed.

End RecordFacts.

(* ===================================================================== *)
(** * Properties of the specification *)
(* ===================================================================== *)

Import JS JS.RegExp Config Client Engine Spec.
Import EffFacts ClientFacts PatternFacts EngineFacts RecordFacts.

(** ** Scores *)

(** C1. Whatever findings are recorded into the categories of a new
    report, the score of every category is 100 minus the penalties of its
    findings (critical 25, high 15, medium 10, low 5), floored at 0; it lies
    between 0 and 100, and recording one more finding, into any category,
    never raises it. *)
Theorem category_score_formula (l : list Step) (owner repo now : string)
    (r : AuditReport) (c : string) (cat : Category) :
  record l (newReport owner repo now) = (Normal tt, r) ->
  categories r !! c = Some cat ->
  score cat = Z.max 0 (100 - total_penalty (issues cat)) /\
  0 <= score cat <= 100 /\
  forall c' i r', addIssue c' i r = (Normal tt, r') ->
    exists cat', categories r' !! c = Some cat' /\ score cat' <= score cat.
Proof.
  intros Hrun Hc. pose proof (scored_record _ _ _ _ _ Hrun c cat Hc) as Hs.
  pose proof (total_penalty_nonneg (issues cat)) as Hp.
  split; [done|]. split; [lia|].
  intros c' i r' Hadd. apply addIssue_normal in Hadd as (cat0 & Hc0 & ->).
  simpl. destruct (decide (c' = c)) as [->|Hne].
  - rewrite lookup_insert_eq. eexists; split; [done|].
    rewrite Hc in Hc0. inversion Hc0; subst cat0. simpl.
    pose proof (penalty_range (severity i)). lia.
  - rewrite lookup_insert_ne by done. exists cat. split; [done|lia].
Qed.

Lemma category_score_formula_witness :
  let r := Examples.report_84 in
  let cat :=
    {| issues := [Examples.finding "critical"; Examples.finding "high"];
       score := 60 |} in
  score cat = Z.max 0 (100 - total_penalty (issues cat)) /\
  0 <= score cat <= 100 /\
  forall c' i r', addIssue c' i r = (Normal tt, r') ->
    exists cat', categories r' !! "D" = Some cat' /\ score cat' <= score cat.
Proof.
  intros r cat.
  apply (category_score_formula Examples.steps_84 "DTSL" "dnd-editor"
           "2024-01-01T00:00:00.000Z" r "D" cat); vm_compute; reflexivity.
Defined.

(** ** The compliance score *)

Lemma Math_round_div (a n : Z) :
  0 < n -> Math_round (div a n) = Rat (inject_Z ((2 * a + n) / (2 * n))).
Proof.
  intros Hn. unfold div. destruct (Z.eqb_spec n 0) as [->|_]; [lia|].
  destruct n as [|p|p]; try lia. simpl. do 2 f_equal.
  unfold Qfloor, Qplus, Qdiv, Qmult, Qinv, inject_Z. simpl.
  f_equal; lia.
Qed.

Lemma sum_scores (l : list Category) :
  foldr Z.add 0 (map score l) = foldr (fun cat acc => score cat + acc) 0 l.
Proof. induction l; simpl; congruence. Qed.

Lemma calculateComplianceScore_value r :
  (0 < size (categories r))%nat ->
  complianceScore (summary (snd (calculateComplianceScore r)))
  = Rat (inject_Z
           ((2 * score_sum (categories r) + Z.of_nat (size (categories r)))
            / (2 * Z.of_nat (size (categories r))))).
Proof.
  intros Hn. simpl. rewrite sum_fold_left, sum_scores, length_map.
  unfold Object_values. rewrite length_fmap, length_map_to_list.
  rewrite Math_round_div by lia. reflexivity.
Qed.

Lemma rounded_mean_div (m : gmap string Category) :
  (0 < size m)%nat ->
  rounded_mean m
    ((2 * score_sum m + Z.of_nat (size m)) / (2 * Z.of_nat (size m))).
Proof.
  intros Hn. unfold rounded_mean. cbv zeta.
  set (n := Z.of_nat (size m)). set (s := score_sum m).
  assert (0 < n) by lia.
  pose proof (Z.div_mod (2 * s + n) (2 * n) ltac:(lia)).
  pose proof (Z.mod_pos_bound (2 * s + n) (2 * n) ltac:(lia)).
  lia.
Qed.

Lemma calculateComplianceScore_categories r :
  categories (snd (calculateComplianceScore r)) = categories r.
Proof. reflexivity. Qed.

(** C2. The compliance score is the mean of the category scores rounded to
    the nearest integer (a tie going up): for every report with at least
    one category; at scores 100, 75, 90, 60, 85 and 95, where it is 84; and
    for the report of every evaluation, whose categories are the six. *)
Theorem compliance_score_rounded_mean :
  (forall r : AuditReport,
     (0 < size (categories r))%nat ->
     exists c,
       complianceScore (summary (snd (calculateComplianceScore r)))
       = Rat (inject_Z c) /\
       rounded_mean (categories r) c) /\
  (score <$> categories Examples.report_84
   = {[ "A" := 100; "B" := 75; "C" := 90; "D" := 60; "E" := 85; "F" := 95 ]} /\
   complianceScore (summary (snd (calculateComplianceScore Examples.report_84)))
   = Rat (inject_Z 84)) /\
  (forall JSON_parse td bp cc owner repo now,
     exists r c,
       runChecks JSON_parse td bp cc (newReport owner repo now)
       = (Normal tt, r) /\
       dom (categories r) = list_to_set six /\
       complianceScore (summary r) = Rat (inject_Z c) /\
       rounded_mean (categories r) c).
Proof.
  split; [|split].
  - intros r Hn. eexists. split; [by apply calculateComplianceScore_value|].
    by apply rounded_mean_div.
  - split; vm_compute; reflexivity.
  - intros JSON_parse td bp cc owner repo now.
    destruct (runChecks_record JSON_parse td bp cc (newReport owner repo now))
      as (l & r6 & Hrec & Hopen & Hrun).
    pose proof (record_dom _ _ _ Hrec) as Hdom. simpl in Hdom.
    rewrite dom_empty_L, Hopen, (left_id_L ∅ (∪)) in Hdom.
    assert (Hsize : (0 < size (categories r6))%nat).
    { rewrite <- size_dom, Hdom. vm_compute. lia. }
    eexists _, _. split; [exact Hrun|]. split; [exact Hdom|].
    split; [by apply calculateComplianceScore_value|].
    simpl. by apply rounded_mean_div.
Qed.

Lemma compliance_score_rounded_mean_witness :
  exists c,
    complianceScore (summary (snd (calculateComplianceScore Examples.report_84)))
    = Rat (inject_Z c) /\
    rounded_mean (categories Examples.report_84) c.
Proof.
  apply (proj1 compliance_score_rounded_mean Examples.report_84).
  vm_compute. lia.
Defined.

(** ** Counters and categories *)

Lemma scored_nonneg r c cat :
  scored r -> categories r !! c = Some cat -> 0 <= score cat.
Proof. intros Hr Hc. rewrite (Hr c cat Hc). lia. Qed.

(** C10. After findings were recorded into the categories of a new report,
    each category opened once, [totalIssues] is the number of findings the
    categories hold; when every severity is critical, high, medium or low
    it is also the sum of the four counters; and one more finding of
    severity info raises [totalIssues] by one, no counter, and changes no
    score. *)
Theorem summary_counts_findings (l : list Step) (owner repo now : string)
    (r : AuditReport) :
  NoDup (opened l) ->
  record l (newReport owner repo now) = (Normal tt, r) ->
  totalIssues (summary r) = issue_count (categories r) /\
  (Forall graded (recorded l) -> graded_total (summary r)) /\
  forall c i r',
    severity i = SEVERITY_LEVELS.INFO ->
    addIssue c i r = (Normal tt, r') ->
    totalIssues (summary r') = totalIssues (summary r) + 1 /\
    criticalIssues (summary r') = criticalIssues (summary r) /\
    highIssues (summary r') = highIssues (summary r) /\
    mediumIssues (summary r') = mediumIssues (summary r) /\
    lowIssues (summary r') = lowIssues (summary r) /\
    score <$> categories r' = score <$> categories r.
Proof.
  intros Hnd Hrun. split; [|split].
  - apply (counted_record l (newReport owner repo now) r Hnd); [|exact Hrun|].
    + intros c _. apply lookup_empty.
    + unfold counted. simpl. unfold issue_count. by rewrite sum_over_empty.
  - intros Hg. apply (graded_record l (newReport owner repo now) r Hg Hrun).
    reflexivity.
  - intros c i r' Hsev Hadd.
    apply addIssue_normal in Hadd as (cat & Hc & ->). simpl.
    rewrite Hsev, bump_info. simpl. repeat (split; [reflexivity|]).
    rewrite fmap_insert. apply insert_id. rewrite lookup_fmap, Hc. simpl.
    f_equal. rewrite Hsev. unfold penalty, SEVERITY_LEVELS.INFO. simpl.
    pose proof (scored_nonneg r c cat (scored_record _ _ _ _ _ Hrun) Hc). lia.
Qed.

Lemma summary_counts_findings_witness :
  let r := Examples.report_84 in
  totalIssues (summary r) = issue_count (categories r) /\
  (Forall graded (recorded Examples.steps_84) -> graded_total (summary r)) /\
  forall c i r',
    severity i = SEVERITY_LEVELS.INFO ->
    addIssue c i r = (Normal tt, r') ->
    totalIssues (summary r') = totalIssues (summary r) + 1 /\
    criticalIssues (summary r') = criticalIssues (summary r) /\
    highIssues (summary r') = highIssues (summary r) /\
    mediumIssues (summary r') = mediumIssues (summary r) /\
    lowIssues (summary r') = lowIssues (summary r) /\
    score <$> categories r' = score <$> categories r.
Proof.
  intros r.
  apply (summary_counts_findings Examples.steps_84 "DTSL" "dnd-editor"
           "2024-01-01T00:00:00.000Z" r).
  - vm_compute. repeat (constructor; [set_solver|]). constructor.
  - vm_compute. reflexivity.
Defined.

Section Evaluation.
Context (JSON_parse : string -> Completion Value).

(** The report of an evaluation, with the states between its checks. *)
Lemma runChecks_stages td bp cc r0 :
  exists r1 r2 r3 r4 r5 r6,
    auditPackageStructure JSON_parse td bp r0 = (Normal tt, r1) /\
    auditDependencyManagement JSON_parse td bp r1 = (Normal tt, r2) /\
    auditBuildConfiguration td bp r2 = (Normal tt, r3) /\
    auditCodeQualitySetup JSON_parse td cc r3 = (Normal tt, r4) /\
    auditTestingSetup JSON_parse td bp r4 = (Normal tt, r5) /\
    auditDocumentation td r5 = (Normal tt, r6) /\
    runChecks JSON_parse td bp cc r0
    = (Normal tt, snd (calculateComplianceScore r6)).
Proof.
  destruct (check_auditPackageStructure JSON_parse td bp r0) as (r1 & E1 & _).
  destruct (check_auditDependencyManagement JSON_parse td bp r1)
    as (r2 & E2 & _).
  destruct (check_auditBuildConfiguration td bp r2) as (r3 & E3 & _).
  destruct (check_auditCodeQualitySetup JSON_parse td cc r3) as (r4 & E4 & _).
  destruct (check_auditTestingSetup JSON_parse td bp r4) as (r5 & E5 & _).
  destruct (check_auditDocumentation td r5) as (r6 & E6 & _).
  exists r1, r2, r3, r4, r5, r6. repeat (split; [done|]).
  unfold runChecks, bind. by rewrite E1, E2, E3, E4, E5, E6.
Qed.

(** The last four checks leave the categories of the first two alone. *)
Lemma last_four_keep td bp cc r2 r3 r4 r5 r6 c :
  auditBuildConfiguration td bp r2 = (Normal tt, r3) ->
  auditCodeQualitySetup JSON_parse td cc r3 = (Normal tt, r4) ->
  auditTestingSetup JSON_parse td bp r4 = (Normal tt, r5) ->
  auditDocumentation td r5 = (Normal tt, r6) ->
  AUDIT_CATEGORIES.BUILD ≠ c /\ AUDIT_CATEGORIES.CODE_QUALITY ≠ c /\
  AUDIT_CATEGORIES.TESTING ≠ c /\ AUDIT_CATEGORIES.DOCUMENTATION ≠ c ->
  categories r6 !! c = categories r2 !! c.
Proof.
  intros E3 E4 E5 E6 (Hb & Hq & Ht & Hd).
  rewrite (check_of_lookup_ne _ _ _ _ _ (check_auditDocumentation td) E6 Hd).
  rewrite (check_of_lookup_ne _ _ _ _ _
             (check_auditTestingSetup JSON_parse td bp) E5 Ht).
  rewrite (check_of_lookup_ne _ _ _ _ _
             (check_auditCodeQualitySetup JSON_parse td cc) E4 Hq).
  apply (check_of_lookup_ne _ _ _ _ _ (check_auditBuildConfiguration td bp) E3 Hb).
Qed.

Lemma auditDocumentation_result td r :
  auditDocumentation td r =
    (Normal tt,
     set_categories
       (set_summary r (bump SEVERITY_LEVELS.LOW (summary r)))
       (<[AUDIT_CATEGORIES.DOCUMENTATION :=
            {| issues := [issue SEVERITY_LEVELS.LOW
                            "Documentation audit not fully implemented"
                            "README and documentation checks need to be implemented"
                            "various"];
               score := 95 |}]> (categories r))).
Proof.
  unfold auditDocumentation, bind, try_catch. simpl.
  erewrite addIssue_present; [|simpl; apply lookup_insert_eq].
  simpl. rewrite insert_insert_eq. reflexivity.
Qed.

(** C9. Whatever the data, the Documentation category of the report holds
    exactly one finding, of severity low, and its score is 95. *)
Theorem documentation_is_placeholder (td : Client.RepositoryData)
    (bp cc : list Client.File.t) (r0 : AuditReport) :
  exists r i,
    runChecks JSON_parse td bp cc r0 = (Normal tt, r) /\
    categories r !! AUDIT_CATEGORIES.DOCUMENTATION
    = Some {| issues := [i]; score := 95 |} /\
    severity i = SEVERITY_LEVELS.LOW.
Proof.
  destruct (runChecks_stages td bp cc r0)
    as (r1 & r2 & r3 & r4 & r5 & r6 & _ & _ & _ & _ & _ & E6 & Hrun).
  rewrite auditDocumentation_result in E6. inversion E6; subst r6; clear E6.
  eexists _, _. split; [exact Hrun|]. split.
  - simpl. apply lookup_insert_eq.
  - reflexivity.
Qed.

Lemma findRootPackage_none td :
  Forall (fun f => Client.File.path f ≠ "package.json")
         (Client.packageFiles td) ->
  findRootPackage td = None.
Proof.
  unfold findRootPackage. induction 1 as [|f l Hf _ IH]; simpl; [done|].
  destruct (String.eqb_spec (Client.File.path f) "package.json");
    [done|exact IH].
Qed.

Lemma auditPackageStructure_missing td bp r :
  findRootPackage td = None ->
  auditPackageStructure JSON_parse td bp r =
    (Normal tt,
     set_categories
       (set_summary r (bump SEVERITY_LEVELS.CRITICAL (summary r)))
       (<[AUDIT_CATEGORIES.STRUCTURE :=
            {| issues := [issue SEVERITY_LEVELS.CRITICAL
                            "Missing root package.json file"
                            "Every monorepo should have a root package.json file"
                            "package.json"];
               score := 75 |}]> (categories r))).
Proof.
  intros Hroot. unfold auditPackageStructure, bind, try_catch. simpl.
  rewrite Hroot.
  erewrite addIssue_present; [|simpl; apply lookup_insert_eq].
  simpl. rewrite insert_insert_eq. reflexivity.
Qed.

(** C3. When no package file has the path [package.json], the Structure
    category of the report holds exactly one finding, which is critical
    (no other Structure check has run), and the evaluation goes on: it
    completes, and the report has all six categories. *)
Theorem missing_manifest_short_circuits (td : Client.RepositoryData)
    (bp cc : list Client.File.t) (owner repo now : string) :
  Forall (fun f => Client.File.path f ≠ "package.json")
         (Client.packageFiles td) ->
  exists r i,
    runChecks JSON_parse td bp cc (newReport owner repo now) = (Normal tt, r) /\
    categories r !! AUDIT_CATEGORIES.STRUCTURE
    = Some {| issues := [i]; score := 75 |} /\
    severity i = SEVERITY_LEVELS.CRITICAL /\
    dom (categories r) = list_to_set six.
Proof.
  intros Hnone. apply findRootPackage_none in Hnone.
  destruct (runChecks_stages td bp cc (newReport owner repo now))
    as (r1 & r2 & r3 & r4 & r5 & r6 & E1 & E2 & E3 & E4 & E5 & E6 & Hrun).
  rewrite (auditPackageStructure_missing _ _ _ Hnone) in E1.
  inversion E1 as [Hr1]; clear E1.
  eexists _, _. split; [exact Hrun|]. split; [|split].
  - rewrite calculateComplianceScore_categories.
    rewrite (last_four_keep td bp cc r2 r3 r4 r5 r6 _ E3 E4 E5 E6)
      by (repeat split; done).
    rewrite (check_of_lookup_ne _ _ _ _ _
               (check_auditDependencyManagement JSON_parse td bp) E2) by done.
    rewrite <- Hr1. simpl. apply lookup_insert_eq.
  - reflexivity.
  - destruct (runChecks_record JSON_parse td bp cc (newReport owner repo now))
      as (l & r6' & Hrec & Hopen & Hrun').
    rewrite Hrun in Hrun'.
    assert (Heq : categories r6 = categories r6').
    { change (categories (snd (calculateComplianceScore r6))
              = categories (snd (calculateComplianceScore r6'))).
      congruence. }
    pose proof (record_dom _ _ _ Hrec) as Hdom. simpl in Hdom.
    rewrite dom_empty_L, Hopen, (left_id_L ∅ (∪)) in Hdom.
    rewrite calculateComplianceScore_categories, Heq. exact Hdom.
Qed.

End Evaluation.

Lemma missing_manifest_short_circuits_witness :
  exists r i,
    runChecks Examples.parse
      (Examples.dataset [Examples.file "apps/web/package.json" "{}"] [])
      [] [] (newReport "DTSL" "dnd-editor" "now") = (Normal tt, r) /\
    categories r !! AUDIT_CATEGORIES.STRUCTURE
    = Some {| issues := [i]; score := 75 |} /\
    severity i = SEVERITY_LEVELS.CRITICAL /\
    dom (categories r) = list_to_set six.
Proof.
  apply (missing_manifest_short_circuits Examples.parse
           (Examples.dataset [Examples.file "apps/web/package.json" "{}"] [])).
  repeat constructor. simpl. discriminate.
Defined.

(** ** Dependencies *)

Lemma get_opt_entry (pkg : gmap string Value) field dep :
  get_opt (pkg !! field) dep = Normal (entry pkg field dep).
Proof. unfold entry. destruct (pkg !! field) as [[]|]; reflexivity. Qed.

Lemma isMissingDep_object pkg dep r :
  isMissingDep (JObject pkg) dep r =
    (Normal (negb (truthy (entry pkg "devDependencies" dep))
             && negb (truthy (entry pkg "dependencies" dep))), r).
Proof.
  unfold isMissingDep, bind, lift. cbn [get]. rewrite !get_opt_entry.
  destruct (truthy (entry pkg "devDependencies" dep)); [reflexivity|].
  reflexivity.
Qed.

Lemma usesLodash_object pkg r :
  exists b, usesLodash (JObject pkg) r = (Normal b, r).
Proof.
  unfold usesLodash, bind, lift. cbn [get]. rewrite !get_opt_entry.
  destruct (truthy (entry pkg "dependencies" "lodash")); by eexists.
Qed.

Section Dependencies.
Context (JSON_parse : string -> Completion Value).

(** The Dependencies category when the manifest is an object that gives a
    truthy value to the first required package and none to the others. *)
Lemma auditDependencyManagement_three td bp r rootPackage pkg :
  findRootPackage td = Some rootPackage ->
  JSON_parse (Client.File.content rootPackage) = Normal (JObject pkg) ->
  truthy (entry pkg "devDependencies" "@dtsl/jest-config") = true ->
  Forall (absent pkg)
    ["@dtsl/eslint-config"; "@dtsl/prettier-config";
     "@dtsl/typescript-config"] ->
  exists r' extra sc,
    auditDependencyManagement JSON_parse td bp r = (Normal tt, r') /\
    categories r' !! AUDIT_CATEGORIES.DEPENDENCIES
    = Some {| issues :=
                map missing_dependency
                  ["@dtsl/eslint-config"; "@dtsl/prettier-config";
                   "@dtsl/typescript-config"] ++ extra;
              score := sc |} /\
    Forall (fun i => severity i = SEVERITY_LEVELS.LOW) extra.
Proof.
  intros Hroot Hparse Hjest Habs.
  apply Forall_cons in Habs as [[He1 He2] Habs].
  apply Forall_cons in Habs as [[Hp1 Hp2] Habs].
  apply Forall_cons in Habs as [[Ht1 Ht2] _].
  unfold auditDependencyManagement, bind, try_catch. simpl.
  rewrite Hroot, Hparse.
  unfold bind. rewrite !isMissingDep_object.
  rewrite Hjest, He1, He2, Hp1, Hp2, Ht1, Ht2. simpl.
  unfold bind.
  erewrite addIssue_present; [|simpl; apply lookup_insert_eq].
  erewrite addIssue_present; [|simpl; apply lookup_insert_eq].
  erewrite addIssue_present; [|simpl; apply lookup_insert_eq].
  simpl. rewrite !insert_insert_eq.
  match goal with |- context [usesLodash _ ?s] =>
    destruct (usesLodash_object pkg s) as [b ->] end.
  destruct b; simpl.
  - erewrite addIssue_present; [|simpl; apply lookup_insert_eq].
    simpl. rewrite insert_insert_eq.
    eexists _, [_], _. split; [reflexivity|]. split.
    + simpl. rewrite lookup_insert_eq. reflexivity.
    + by repeat constructor.
  - eexists _, [], _. split; [reflexivity|]. split.
    + simpl. rewrite lookup_insert_eq. reflexivity.
    + constructor.
Qed.

Lemma medium_findings_extra l extra sc :
  Forall (fun i => severity i = SEVERITY_LEVELS.LOW) extra ->
  medium_findings {| issues := map missing_dependency l ++ extra; score := sc |}
  = map missing_dependency l.
Proof.
  intros Hextra. unfold medium_findings. simpl. rewrite List.filter_app.
  assert (List.filter
            (fun i => String.eqb (severity i) SEVERITY_LEVELS.MEDIUM) extra
          = []) as ->.
  { induction Hextra as [|i extra Hi _ IH]; simpl; [done|]. by rewrite Hi. }
  rewrite app_nil_r. induction l; simpl; congruence.
Qed.

(** C6 (amended). When the root manifest parses to an object whose
    [devDependencies] gives [@dtsl/jest-config] a truthy value (a version
    string that is not empty), and the three other required packages are in
    neither [dependencies] nor [devDependencies], the Dependencies category
    holds exactly three medium findings, one per missing package and naming
    it, in the order of the list; any other finding of the category is
    low. *)
Theorem required_dependencies_reported (td : Client.RepositoryData)
    (bp cc : list Client.File.t) (r0 : AuditReport)
    (rootPackage : Client.File.t) (pkg : gmap string Value) :
  findRootPackage td = Some rootPackage ->
  JSON_parse (Client.File.content rootPackage) = Normal (JObject pkg) ->
  truthy (entry pkg "devDependencies" "@dtsl/jest-config") = true ->
  Forall (absent pkg)
    ["@dtsl/eslint-config"; "@dtsl/prettier-config";
     "@dtsl/typescript-config"] ->
  exists r cat extra,
    runChecks JSON_parse td bp cc r0 = (Normal tt, r) /\
    categories r !! AUDIT_CATEGORIES.DEPENDENCIES = Some cat /\
    medium_findings cat
    = map missing_dependency
        ["@dtsl/eslint-config"; "@dtsl/prettier-config";
         "@dtsl/typescript-config"] /\
    issues cat = medium_findings cat ++ extra /\
    Forall (fun i => severity i = SEVERITY_LEVELS.LOW) extra.
Proof.
  intros Hroot Hparse Hjest Habs.
  destruct (runChecks_stages JSON_parse td bp cc r0)
    as (r1 & r2 & r3 & r4 & r5 & r6 & E1 & E2 & E3 & E4 & E5 & E6 & Hrun).
  destruct (auditDependencyManagement_three td bp r1 _ _
              Hroot Hparse Hjest Habs)
    as (r2' & extra & sc & E2' & Hcat & Hextra).
  rewrite E2 in E2'. inversion E2'; subst r2'; clear E2'.
  eexists _, _, extra. split; [exact Hrun|]. split; [|split; [|split]].
  - rewrite calculateComplianceScore_categories.
    rewrite (last_four_keep JSON_parse td bp cc r2 r3 r4 r5 r6 _ E3 E4 E5 E6)
      by (repeat split; done).
    exact Hcat.
  - by apply medium_findings_extra.
  - by rewrite medium_findings_extra.
  - exact Hextra.
Qed.

End Dependencies.

Lemma required_dependencies_reported_witness :
  exists r cat extra,
    runChecks Examples.parse
      (Examples.dataset [Examples.file "package.json" Examples.jest_text] [])
      [] [] Examples.report = (Normal tt, r) /\
    categories r !! AUDIT_CATEGORIES.DEPENDENCIES = Some cat /\
    medium_findings cat
    = map missing_dependency
        ["@dtsl/eslint-config"; "@dtsl/prettier-config";
         "@dtsl/typescript-config"] /\
    issues cat = medium_findings cat ++ extra /\
    Forall (fun i => severity i = SEVERITY_LEVELS.LOW) extra.
Proof.
  apply (required_dependencies_reported Examples.parse
           (Examples.dataset [Examples.file "package.json" Examples.jest_text] [])
           [] [] Examples.report
           (Examples.file "package.json" Examples.jest_text)
           {[ "devDependencies" :=
                JObject {[ "@dtsl/jest-config" := JString "1.0.0" ]} ]}).
  - reflexivity.
  - reflexivity.
  - reflexivity.
  - repeat constructor.
Defined.

(** C6, as worded, fails: a manifest whose [devDependencies] has the key
    [@dtsl/jest-config] with an empty version string gets four medium
    findings, the first naming [@dtsl/jest-config] itself. *)
Lemma dependency_claim_counterexample :
  ~ dependency_claim Examples.parse
      (Examples.dataset [Examples.file "package.json" Examples.blank_text] [])
      [] [] Examples.report.
Proof.
  intros H.
  destruct (H (Examples.file "package.json" Examples.blank_text)
              {[ "devDependencies" :=
                   JObject {[ "@dtsl/jest-config" := JString "" ]} ]})
    as (r & cat & Hrun & Hcat & Hmed).
  - reflexivity.
  - reflexivity.
  - by eexists.
  - repeat constructor.
  - vm_compute in Hrun. inversion Hrun; subst r; clear Hrun.
    vm_compute in Hcat. inversion Hcat; subst cat; clear Hcat.
    vm_compute in Hmed. discriminate Hmed.
Qed.

(** ** Collection *)

(** C5. Reading a file whose reported size is greater than the configured
    maximum returns [null], and the collection, which always returns a
    dataset, returns one in which no file is larger than the maximum. *)
Theorem oversized_files_are_dropped
    (getContent : string -> string -> string -> string -> Completion Data)
    (base64_decode : string -> string) (config : Config.t) (now : string)
    (owner repo : string) :
  (forall path data,
     getContent owner repo path (ref config) = Normal (Single data) ->
     Item.size data > maxFileSize (chunking config) ->
     getFileContent getContent base64_decode config owner repo path
     = Normal None) /\
  exists d,
    getRepositoryDataChunked getContent base64_decode config now owner repo
    = Normal d /\
    Forall (fun f => File.size f <= maxFileSize (chunking config))
           (packageFiles d ++ configFiles d).
Proof.
  split.
  - intros path data Hdata Hsize. rewrite getFileContent_eq, Hdata.
    destruct (Z.gtb_spec (Item.size data) (maxFileSize (chunking config)));
      [reflexivity|lia].
  - destruct (getRepositoryDataChunked_collected getContent base64_decode
                config now
                (fun f => File.size f <= maxFileSize (chunking config))
                (getFileContent_size getContent base64_decode config)
                owner repo) as (d & Hd & Hp & Hc).
    exists d. split; [exact Hd|]. apply Forall_app. by split.
Qed.

Lemma oversized_files_are_dropped_witness :
  getFileContent Examples.oversized Examples.clear MCP_CONFIG
    "DTSL" "dnd-editor" "turbo.json" = Normal None.
Proof.
  apply (proj1 (oversized_files_are_dropped Examples.oversized Examples.clear
                  MCP_CONFIG "now" "DTSL" "dnd-editor")
           "turbo.json"
           (Examples.entry "turbo.json" "file" 60000 (Some "{}"))).
  - reflexivity.
  - simpl. lia.
Defined.

(** C4 (amended). The collection never aborts: it returns a dataset for
    every remote, and a remote call that fails, with a 404 or with any
    other error, is caught where it is made: the directory listing then
    has no entries and the file read returns [null]. *)
Theorem collection_never_aborts
    (getContent : string -> string -> string -> string -> Completion Data)
    (base64_decode : string -> string) (config : Config.t) (now : string)
    (owner repo : string) :
  (exists d,
     getRepositoryDataChunked getContent base64_decode config now owner repo
     = Normal d) /\
  forall path e,
    getContent owner repo path (ref config) = Throw e ->
    getRepositoryStructure getContent config owner repo path = Normal [] /\
    getFileContent getContent base64_decode config owner repo path
    = Normal None.
Proof.
  split.
  - destruct (getRepositoryDataChunked_collected getContent base64_decode
                config now (fun _ => True) (fun _ _ _ _ _ => I) owner repo)
      as (d & Hd & _).
    by exists d.
  - intros path e He. rewrite getRepositoryStructure_eq, getFileContent_eq.
    by rewrite He.
Qed.

Lemma collection_never_aborts_witness :
  getRepositoryStructure Examples.unavailable MCP_CONFIG
    "DTSL" "dnd-editor" "apps" = Normal [] /\
  getFileContent Examples.unavailable Examples.clear MCP_CONFIG
    "DTSL" "dnd-editor" "apps" = Normal None.
Proof.
  apply (proj2 (collection_never_aborts Examples.unavailable Examples.clear
                  MCP_CONFIG "now" "DTSL" "dnd-editor")
           "apps" (RequestError 503)).
  reflexivity.
Defined.

(** C4, as worded, fails: when every request fails with status 503, the
    collection returns an empty dataset instead of failing. *)
Lemma abort_claim_counterexample :
  ~ abort_claim Examples.unavailable Examples.clear MCP_CONFIG "now"
      "DTSL" "dnd-editor".
Proof.
  intros H. specialize (H (RequestError 503)).
  assert (Hne : RequestError 503 <> RequestError 404)
    by (intros E; inversion E).
  specialize (H Hne eq_refl). vm_compute in H. discriminate H.
Qed.

(** C7, at the input where it fails: the root of the common-config
    repository holds one entry, a symbolic link named [lint.js]; no entry
    has the type [file], and yet the fetch returns a file. *)
Theorem common_config_takes_a_link :
  getRepositoryStructure Examples.linked MCP_CONFIG "DTSL" "fe-common-config" ""
  = Normal [Examples.entry "lint.js" "symlink" 12 None] /\
  getCommonConfig Examples.linked Examples.clear MCP_CONFIG
  = Normal [{| File.path := "lint.js";
               File.content := "module.exports = {};";
               File.size := 20;
               File.sha := "9daeafb9864cf43055ae93beb0afd6c7d144bfa4" |}].
Proof. split; reflexivity. Qed.

(** ** Patterns *)

(** C8 (amended). For every file name and every list of patterns made of
    ordinary characters with at most one [*] each, [matchesPattern] returns
    normally, and it returns true exactly when some pattern matches a
    substring of the name, [*] standing for any run of characters without
    a line terminator, [.] for any one character that is not a line
    terminator, and every other character for itself. *)
Theorem matchesPattern_is_wildcard_match (filename : string)
    (patterns : list string) :
  Forall (fun p => simple p = true) patterns ->
  matchesPattern filename patterns
  = Some (Normal (wild_matches filename patterns)).
Proof.
  induction 1 as [|p patterns Hp _ IH]; [reflexivity|].
  destruct (compile_simple p Hp) as (r & Hr & Hm).
  simpl. rewrite Hr, (test_wild r p Hm).
  destruct (wild_test p filename); [reflexivity|exact IH].
Qed.

Lemma matchesPattern_is_wildcard_match_witness :
  matchesPattern "babel.config.js" configPatterns
  = Some (Normal (wild_matches "babel.config.js" configPatterns)).
Proof.
  apply (matchesPattern_is_wildcard_match "babel.config.js" configPatterns).
  repeat constructor.
Defined.

(** C8, as worded, fails: [tsconfig.json], a pattern of the code's own
    list, matches the name [tsconfigXjson], in which no [.] occurs. *)
Lemma glob_claim_counterexample :
  ~ glob_claim "tsconfigXjson" ["tsconfig.json"].
Proof. intros H. vm_compute in H. discriminate H. Qed.

(** ** The whole audit *)

(** The audit of a repository never fails: it is the evaluation of what the
    client collected, on a new report. *)
Lemma auditRepository_eq JSON_parse getContent base64_decode config now
    timestamp owner repo :
  exists td bp cc,
    getRepositoryDataChunked getContent base64_decode config now owner repo
    = Normal td /\
    getBoilerplateTemplate getContent base64_decode config = Normal bp /\
    getCommonConfig getContent base64_decode config = Normal cc /\
    auditRepository JSON_parse getContent base64_decode config now timestamp
      owner repo
    = Normal (snd (runChecks JSON_parse td bp cc
                     (newReport owner repo timestamp))).
Proof.
  destruct (getRepositoryDataChunked_collected getContent base64_decode
              config now (fun _ => True) (fun _ _ _ _ _ => I) owner repo)
    as (td & Htd & _).
  destruct (getBoilerplateTemplate_normal getContent base64_decode config)
    as (bp & Hbp).
  pose proof (getCommonConfig_eq getContent base64_decode config) as Hcc.
  cbv zeta in Hcc.
  eexists td, bp, _. split; [exact Htd|]. split; [exact Hbp|].
  split; [exact Hcc|].
  unfold auditRepository, try_catch, bind, lift.
  rewrite Htd, Hbp, Hcc.
  match goal with |- context [runChecks _ _ _ ?cc _] =>
    destruct (runChecks_stages JSON_parse td bp cc
                (newReport owner repo timestamp))
      as (r1 & r2 & r3 & r4 & r5 & r6 & _ & _ & _ & _ & _ & _ & Hrun)
  end.
  rewrite Hrun. reflexivity.
Qed.

(** Every report of an evaluation has the six categories, each with the
    score of the penalty table, and counts the findings they hold. *)
Lemma runChecks_invariants JSON_parse td bp cc owner repo now :
  let r := snd (runChecks JSON_parse td bp cc (newReport owner repo now)) in
  scored r /\ counted r /\ dom (categories r) = list_to_set six.
Proof.
  destruct (runChecks_record JSON_parse td bp cc (newReport owner repo now))
    as (l & r6 & Hrec & Hopen & Hrun).
  rewrite Hrun. cbv zeta. split; [|split].
  - exact (scored_record _ _ _ _ _ Hrec).
  - change (counted r6).
    apply (counted_record l (newReport owner repo now) r6); [| |exact Hrec|].
    + rewrite Hopen. repeat (constructor; [set_solver|]). constructor.
    + intros c _. apply lookup_empty.
    + unfold counted, issue_count. simpl. by rewrite sum_over_empty.
  - pose proof (record_dom _ _ _ Hrec) as Hdom. simpl in Hdom.
    rewrite dom_empty_L, Hopen, (left_id_L ∅ (∪)) in Hdom. exact Hdom.
Qed.
